(** * Arcane example services: status / introspection endpoints

    A shallow embedding of the three examples of the repository,

    - [examples/feature-test/app.py]   (module [FeatureTest]): an
      [http.server] handler with [/health], [/crash] and a fallback page;
    - [examples/full-stack-demo/api.py] (module [Api]): a Flask application
      with [/health], [/], [/env], [/db-check], [/cache-check],
      [/queue-check] and [/services];
    - [examples/full-stack-demo/worker.py] (module [Worker]): a start-up
      report and a heartbeat loop;

    and the properties of their routes.

    Conventions.  A Python [str] is a [str]: a sequence of Unicode code
    points, lone surrogates included (they stand for the bytes of the
    environment that do not decode).  [len], slicing, [in], [==] and [+]
    act on code points; [str.upper] follows the full upper-case mapping of
    Unicode 14.0 (CPython 3.11), and [int] its decimal digits and blanks.
    A Python [bytes] is a [bytes], a sequence of 8-bit characters.
    [os.environ] is a finite map from names to values.  Effects (reading the
    environment and the clock, writing to the standard streams and to the
    connection, binding the listener, raising) are threaded through a
    state-and-exception monad over a [World]. *)

From Stdlib Require Import ZArith QArith Ascii String Decimal DecimalString DecimalN DecimalPos.
From stdpp Require Import base option list gmap strings fin_maps.

Local Open Scope Z_scope.

(** ** Python strings *)

(** A [str]: its code points, first to last. *)
Inductive str : Set :=
| EmptyStr
| Str (c : N) (rest : str).

Declare Scope str_scope.
Delimit Scope str_scope with str.
Bind Scope str_scope with str.

(** A [bytes] object. *)
Definition bytes : Set := string.

Declare Scope bytes_scope.
Delimit Scope bytes_scope with b.
Bind Scope bytes_scope with bytes.
String Notation string String.string_of_list_byte String.list_byte_of_string : bytes_scope.

Module Utf8.

Definition is_cont (b : N) : bool := ((128 <=? b) && (b <=? 191))%N.

Definition between (lo b hi : N) : bool := ((lo <=? b) && (b <=? hi))%N.

(** The code points of a well-formed UTF-8 text; [None] when it is ill-formed. *)
Fixpoint decode (bs : list N) : option str :=
  match bs with
  | [] => Some EmptyStr
  | b0 :: r0 =>
      if (b0 <? 128)%N then Str b0 <$> decode r0
      else if between 194 b0 223 then
        match r0 with
        | b1 :: r1 =>
            if is_cont b1
            then Str ((b0 - 192) * 64 + (b1 - 128))%N <$> decode r1
            else None
        | _ => None
        end
      else if between 224 b0 239 then
        match r0 with
        | b1 :: b2 :: r2 =>
            if between (if (b0 =? 224)%N then 160 else 128) b1
                       (if (b0 =? 237)%N then 159 else 191) && is_cont b2
            then Str ((b0 - 224) * 4096 + (b1 - 128) * 64 + (b2 - 128))%N <$> decode r2
            else None
        | _ => None
        end
      else if between 240 b0 244 then
        match r0 with
        | b1 :: b2 :: b3 :: r3 =>
            if between (if (b0 =? 240)%N then 144 else 128) b1
                       (if (b0 =? 244)%N then 143 else 191) && is_cont b2 && is_cont b3
            then Str ((b0 - 240) * 262144 + (b1 - 128) * 4096 +
                      (b2 - 128) * 64 + (b3 - 128))%N <$> decode r3
            else None
        | _ => None
        end
      else None
  end.

(** A code point UTF-8 has a form for: not a surrogate, at most U+10FFFF. *)
Definition scalar (c : N) : bool :=
  ((c <? 55296) || ((57343 <? c) && (c <=? 1114111)))%N.

(** The bytes of one code point. *)
Definition encode_char (c : N) : list N :=
  if (c <? 128)%N then [c]
  else if (c <? 2048)%N then [192 + c / 64; 128 + c mod 64]%N
  else if (c <? 65536)%N then [224 + c / 4096; 128 + (c / 64) mod 64; 128 + c mod 64]%N
  else [240 + c / 262144; 128 + (c / 4096) mod 64; 128 + (c / 64) mod 64; 128 + c mod 64]%N.

Fixpoint encode (s : str) : list N :=
  match s with
  | EmptyStr => []
  | Str c rest => encode_char c ++ encode rest
  end.

Fixpoint all_scalar (s : str) : bool :=
  match s with
  | EmptyStr => true
  | Str c rest => scalar c && all_scalar rest
  end.

Definition of_literal (bs : list Byte.byte) : option str :=
  decode (Byte.to_N <$> bs).

Definition to_literal (s : str) : option (list Byte.byte) :=
  if all_scalar s then mapM Byte.of_N (encode s) else None.

End Utf8.

String Notation str Utf8.of_literal Utf8.to_literal : str_scope.

Local Open Scope str_scope.

Fixpoint str_app (s t : str) : str :=
  match s with
  | EmptyStr => t
  | Str c rest => Str c (str_app rest t)
  end.

Infix "+:+" := str_app (at level 60, right associativity) : str_scope.

Module PyStr.

Fixpoint to_list (s : str) : list N :=
  match s with
  | EmptyStr => []
  | Str c rest => c :: to_list rest
  end.

Fixpoint of_list (cs : list N) : str :=
  match cs with
  | [] => EmptyStr
  | c :: rest => Str c (of_list rest)
  end.

(** [len(s)], as a natural number. *)
Fixpoint length (s : str) : nat :=
  match s with
  | EmptyStr => O
  | Str _ rest => S (length rest)
  end.

(** The code points whose upper case is not themselves, each with its full
    upper-case mapping (UnicodeData.txt and SpecialCasing.txt of Unicode
    14.0, as [str.upper] applies them); the letters a-z are left to
    [upper_char]. *)
Definition upper_table : list (N * list N) := [
  (181, [924]); (223, [83; 83]); (224, [192]); (225, [193]); (226, [194]);
  (227, [195]); (228, [196]); (229, [197]); (230, [198]); (231, [199]);
  (232, [200]); (233, [201]); (234, [202]); (235, [203]); (236, [204]);
  (237, [205]); (238, [206]); (239, [207]); (240, [208]); (241, [209]);
  (242, [210]); (243, [211]); (244, [212]); (245, [213]); (246, [214]);
  (248, [216]); (249, [217]); (250, [218]); (251, [219]); (252, [220]);
  (253, [221]); (254, [222]); (255, [376]); (257, [256]); (259, [258]);
  (261, [260]); (263, [262]); (265, [264]); (267, [266]); (269, [268]);
  (271, [270]); (273, [272]); (275, [274]); (277, [276]); (279, [278]);
  (281, [280]); (283, [282]); (285, [284]); (287, [286]); (289, [288]);
  (291, [290]); (293, [292]); (295, [294]); (297, [296]); (299, [298]);
  (301, [300]); (303, [302]); (305, [73]); (307, [306]); (309, [308]);
  (311, [310]); (314, [313]); (316, [315]); (318, [317]); (320, [319]);
  (322, [321]); (324, [323]); (326, [325]); (328, [327]); (329, [700; 78]);
  (331, [330]); (333, [332]); (335, [334]); (337, [336]); (339, [338]);
  (341, [340]); (343, [342]); (345, [344]); (347, [346]); (349, [348]);
  (351, [350]); (353, [352]); (355, [354]); (357, [356]); (359, [358]);
  (361, [360]); (363, [362]); (365, [364]); (367, [366]); (369, [368]);
  (371, [370]); (373, [372]); (375, [374]); (378, [377]); (380, [379]);
  (382, [381]); (383, [83]); (384, [579]); (387, [386]); (389, [388]);
  (392, [391]); (396, [395]); (402, [401]); (405, [502]); (409, [408]);
  (410, [573]); (414, [544]); (417, [416]); (419, [418]); (421, [420]);
  (424, [423]); (429, [428]); (432, [431]); (436, [435]); (438, [437]);
  (441, [440]); (445, [444]); (447, [503]); (453, [452]); (454, [452]);
  (456, [455]); (457, [455]); (459, [458]); (460, [458]); (462, [461]);
  (464, [463]); (466, [465]); (468, [467]); (470, [469]); (472, [471]);
  (474, [473]); (476, [475]); (477, [398]); (479, [478]); (481, [480]);
  (483, [482]); (485, [484]); (487, [486]); (489, [488]); (491, [490]);
  (493, [492]); (495, [494]); (496, [74; 780]); (498, [497]); (499, [497]);
  (501, [500]); (505, [504]); (507, [506]); (509, [508]); (511, [510]);
  (513, [512]); (515, [514]); (517, [516]); (519, [518]); (521, [520]);
  (523, [522]); (525, [524]); (527, [526]); (529, [528]); (531, [530]);
  (533, [532]); (535, [534]); (537, [536]); (539, [538]); (541, [540]);
  (543, [542]); (547, [546]); (549, [548]); (551, [550]); (553, [552]);
  (555, [554]); (557, [556]); (559, [558]); (561, [560]); (563, [562]);
  (572, [571]); (575, [11390]); (576, [11391]); (578, [577]); (583, [582]);
  (585, [584]); (587, [586]); (589, [588]); (591, [590]); (592, [11375]);
  (593, [11373]); (594, [11376]); (595, [385]); (596, [390]); (598, [393]);
  (599, [394]); (601, [399]); (603, [400]); (604, [42923]); (608, [403]);
  (609, [42924]); (611, [404]); (613, [42893]); (614, [42922]); (616, [407]);
  (617, [406]); (618, [42926]); (619, [11362]); (620, [42925]); (623, [412]);
  (625, [11374]); (626, [413]); (629, [415]); (637, [11364]); (640, [422]);
  (642, [42949]); (643, [425]); (647, [42929]); (648, [430]); (649, [580]);
  (650, [433]); (651, [434]); (652, [581]); (658, [439]); (669, [42930]);
  (670, [42928]); (837, [921]); (881, [880]); (883, [882]); (887, [886]);
  (891, [1021]); (892, [1022]); (893, [1023]); (912, [921; 776; 769]); (940, [902]);
  (941, [904]); (942, [905]); (943, [906]); (944, [933; 776; 769]); (945, [913]);
  (946, [914]); (947, [915]); (948, [916]); (949, [917]); (950, [918]);
  (951, [919]); (952, [920]); (953, [921]); (954, [922]); (955, [923]);
  (956, [924]); (957, [925]); (958, [926]); (959, [927]); (960, [928]);
  (961, [929]); (962, [931]); (963, [931]); (964, [932]); (965, [933]);
  (966, [934]); (967, [935]); (968, [936]); (969, [937]); (970, [938]);
  (971, [939]); (972, [908]); (973, [910]); (974, [911]); (976, [914]);
  (977, [920]); (981, [934]); (982, [928]); (983, [975]); (985, [984]);
  (987, [986]); (989, [988]); (991, [990]); (993, [992]); (995, [994]);
  (997, [996]); (999, [998]); (1001, [1000]); (1003, [1002]); (1005, [1004]);
  (1007, [1006]); (1008, [922]); (1009, [929]); (1010, [1017]); (1011, [895]);
  (1013, [917]); (1016, [1015]); (1019, [1018]); (1072, [1040]); (1073, [1041]);
  (1074, [1042]); (1075, [1043]); (1076, [1044]); (1077, [1045]); (1078, [1046]);
  (1079, [1047]); (1080, [1048]); (1081, [1049]); (1082, [1050]); (1083, [1051]);
  (1084, [1052]); (1085, [1053]); (1086, [1054]); (1087, [1055]); (1088, [1056]);
  (1089, [1057]); (1090, [1058]); (1091, [1059]); (1092, [1060]); (1093, [1061]);
  (1094, [1062]); (1095, [1063]); (1096, [1064]); (1097, [1065]); (1098, [1066]);
  (1099, [1067]); (1100, [1068]); (1101, [1069]); (1102, [1070]); (1103, [1071]);
  (1104, [1024]); (1105, [1025]); (1106, [1026]); (1107, [1027]); (1108, [1028]);
  (1109, [1029]); (1110, [1030]); (1111, [1031]); (1112, [1032]); (1113, [1033]);
  (1114, [1034]); (1115, [1035]); (1116, [1036]); (1117, [1037]); (1118, [1038]);
  (1119, [1039]); (1121, [1120]); (1123, [1122]); (1125, [1124]); (1127, [1126]);
  (1129, [1128]); (1131, [1130]); (1133, [1132]); (1135, [1134]); (1137, [1136]);
  (1139, [1138]); (1141, [1140]); (1143, [1142]); (1145, [1144]); (1147, [1146]);
  (1149, [1148]); (1151, [1150]); (1153, [1152]); (1163, [1162]); (1165, [1164]);
  (1167, [1166]); (1169, [1168]); (1171, [1170]); (1173, [1172]); (1175, [1174]);
  (1177, [1176]); (1179, [1178]); (1181, [1180]); (1183, [1182]); (1185, [1184]);
  (1187, [1186]); (1189, [1188]); (1191, [1190]); (1193, [1192]); (1195, [1194]);
  (1197, [1196]); (1199, [1198]); (1201, [1200]); (1203, [1202]); (1205, [1204]);
  (1207, [1206]); (1209, [1208]); (1211, [1210]); (1213, [1212]); (1215, [1214]);
  (1218, [1217]); (1220, [1219]); (1222, [1221]); (1224, [1223]); (1226, [1225]);
  (1228, [1227]); (1230, [1229]); (1231, [1216]); (1233, [1232]); (1235, [1234]);
  (1237, [1236]); (1239, [1238]); (1241, [1240]); (1243, [1242]); (1245, [1244]);
  (1247, [1246]); (1249, [1248]); (1251, [1250]); (1253, [1252]); (1255, [1254]);
  (1257, [1256]); (1259, [1258]); (1261, [1260]); (1263, [1262]); (1265, [1264]);
  (1267, [1266]); (1269, [1268]); (1271, [1270]); (1273, [1272]); (1275, [1274]);
  (1277, [1276]); (1279, [1278]); (1281, [1280]); (1283, [1282]); (1285, [1284]);
  (1287, [1286]); (1289, [1288]); (1291, [1290]); (1293, [1292]); (1295, [1294]);
  (1297, [1296]); (1299, [1298]); (1301, [1300]); (1303, [1302]); (1305, [1304]);
  (1307, [1306]); (1309, [1308]); (1311, [1310]); (1313, [1312]); (1315, [1314]);
  (1317, [1316]); (1319, [1318]); (1321, [1320]); (1323, [1322]); (1325, [1324]);
  (1327, [1326]); (1377, [1329]); (1378, [1330]); (1379, [1331]); (1380, [1332]);
  (1381, [1333]); (1382, [1334]); (1383, [1335]); (1384, [1336]); (1385, [1337]);
  (1386, [1338]); (1387, [1339]); (1388, [1340]); (1389, [1341]); (1390, [1342]);
  (1391, [1343]); (1392, [1344]); (1393, [1345]); (1394, [1346]); (1395, [1347]);
  (1396, [1348]); (1397, [1349]); (1398, [1350]); (1399, [1351]); (1400, [1352]);
  (1401, [1353]); (1402, [1354]); (1403, [1355]); (1404, [1356]); (1405, [1357]);
  (1406, [1358]); (1407, [1359]); (1408, [1360]); (1409, [1361]); (1410, [1362]);
  (1411, [1363]); (1412, [1364]); (1413, [1365]); (1414, [1366]); (1415, [1333; 1362]);
  (4304, [7312]); (4305, [7313]); (4306, [7314]); (4307, [7315]); (4308, [7316]);
  (4309, [7317]); (4310, [7318]); (4311, [7319]); (4312, [7320]); (4313, [7321]);
  (4314, [7322]); (4315, [7323]); (4316, [7324]); (4317, [7325]); (4318, [7326]);
  (4319, [7327]); (4320, [7328]); (4321, [7329]); (4322, [7330]); (4323, [7331]);
  (4324, [7332]); (4325, [7333]); (4326, [7334]); (4327, [7335]); (4328, [7336]);
  (4329, [7337]); (4330, [7338]); (4331, [7339]); (4332, [7340]); (4333, [7341]);
  (4334, [7342]); (4335, [7343]); (4336, [7344]); (4337, [7345]); (4338, [7346]);
  (4339, [7347]); (4340, [7348]); (4341, [7349]); (4342, [7350]); (4343, [7351]);
  (4344, [7352]); (4345, [7353]); (4346, [7354]); (4349, [7357]); (4350, [7358]);
  (4351, [7359]); (5112, [5104]); (5113, [5105]); (5114, [5106]); (5115, [5107]);
  (5116, [5108]); (5117, [5109]); (7296, [1042]); (7297, [1044]); (7298, [1054]);
  (7299, [1057]); (7300, [1058]); (7301, [1058]); (7302, [1066]); (7303, [1122]);
  (7304, [42570]); (7545, [42877]); (7549, [11363]); (7566, [42950]); (7681, [7680]);
  (7683, [7682]); (7685, [7684]); (7687, [7686]); (7689, [7688]); (7691, [7690]);
  (7693, [7692]); (7695, [7694]); (7697, [7696]); (7699, [7698]); (7701, [7700]);
  (7703, [7702]); (7705, [7704]); (7707, [7706]); (7709, [7708]); (7711, [7710]);
  (7713, [7712]); (7715, [7714]); (7717, [7716]); (7719, [7718]); (7721, [7720]);
  (7723, [7722]); (7725, [7724]); (7727, [7726]); (7729, [7728]); (7731, [7730]);
  (7733, [7732]); (7735, [7734]); (7737, [7736]); (7739, [7738]); (7741, [7740]);
  (7743, [7742]); (7745, [7744]); (7747, [7746]); (7749, [7748]); (7751, [7750]);
  (7753, [7752]); (7755, [7754]); (7757, [7756]); (7759, [7758]); (7761, [7760]);
  (7763, [7762]); (7765, [7764]); (7767, [7766]); (7769, [7768]); (7771, [7770]);
  (7773, [7772]); (7775, [7774]); (7777, [7776]); (7779, [7778]); (7781, [7780]);
  (7783, [7782]); (7785, [7784]); (7787, [7786]); (7789, [7788]); (7791, [7790]);
  (7793, [7792]); (7795, [7794]); (7797, [7796]); (7799, [7798]); (7801, [7800]);
  (7803, [7802]); (7805, [7804]); (7807, [7806]); (7809, [7808]); (7811, [7810]);
  (7813, [7812]); (7815, [7814]); (7817, [7816]); (7819, [7818]); (7821, [7820]);
  (7823, [7822]); (7825, [7824]); (7827, [7826]); (7829, [7828]); (7830, [72; 817]);
  (7831, [84; 776]); (7832, [87; 778]); (7833, [89; 778]); (7834, [65; 702]); (7835, [7776]);
  (7841, [7840]); (7843, [7842]); (7845, [7844]); (7847, [7846]); (7849, [7848]);
  (7851, [7850]); (7853, [7852]); (7855, [7854]); (7857, [7856]); (7859, [7858]);
  (7861, [7860]); (7863, [7862]); (7865, [7864]); (7867, [7866]); (7869, [7868]);
  (7871, [7870]); (7873, [7872]); (7875, [7874]); (7877, [7876]); (7879, [7878]);
  (7881, [7880]); (7883, [7882]); (7885, [7884]); (7887, [7886]); (7889, [7888]);
  (7891, [7890]); (7893, [7892]); (7895, [7894]); (7897, [7896]); (7899, [7898]);
  (7901, [7900]); (7903, [7902]); (7905, [7904]); (7907, [7906]); (7909, [7908]);
  (7911, [7910]); (7913, [7912]); (7915, [7914]); (7917, [7916]); (7919, [7918]);
  (7921, [7920]); (7923, [7922]); (7925, [7924]); (7927, [7926]); (7929, [7928]);
  (7931, [7930]); (7933, [7932]); (7935, [7934]); (7936, [7944]); (7937, [7945]);
  (7938, [7946]); (7939, [7947]); (7940, [7948]); (7941, [7949]); (7942, [7950]);
  (7943, [7951]); (7952, [7960]); (7953, [7961]); (7954, [7962]); (7955, [7963]);
  (7956, [7964]); (7957, [7965]); (7968, [7976]); (7969, [7977]); (7970, [7978]);
  (7971, [7979]); (7972, [7980]); (7973, [7981]); (7974, [7982]); (7975, [7983]);
  (7984, [7992]); (7985, [7993]); (7986, [7994]); (7987, [7995]); (7988, [7996]);
  (7989, [7997]); (7990, [7998]); (7991, [7999]); (8000, [8008]); (8001, [8009]);
  (8002, [8010]); (8003, [8011]); (8004, [8012]); (8005, [8013]); (8016, [933; 787]);
  (8017, [8025]); (8018, [933; 787; 768]); (8019, [8027]); (8020, [933; 787; 769]); (8021, [8029]);
  (8022, [933; 787; 834]); (8023, [8031]); (8032, [8040]); (8033, [8041]); (8034, [8042]);
  (8035, [8043]); (8036, [8044]); (8037, [8045]); (8038, [8046]); (8039, [8047]);
  (8048, [8122]); (8049, [8123]); (8050, [8136]); (8051, [8137]); (8052, [8138]);
  (8053, [8139]); (8054, [8154]); (8055, [8155]); (8056, [8184]); (8057, [8185]);
  (8058, [8170]); (8059, [8171]); (8060, [8186]); (8061, [8187]); (8064, [7944; 921]);
  (8065, [7945; 921]); (8066, [7946; 921]); (8067, [7947; 921]); (8068, [7948; 921]); (8069, [7949; 921]);
  (8070, [7950; 921]); (8071, [7951; 921]); (8072, [7944; 921]); (8073, [7945; 921]); (8074, [7946; 921]);
  (8075, [7947; 921]); (8076, [7948; 921]); (8077, [7949; 921]); (8078, [7950; 921]); (8079, [7951; 921]);
  (8080, [7976; 921]); (8081, [7977; 921]); (8082, [7978; 921]); (8083, [7979; 921]); (8084, [7980; 921]);
  (8085, [7981; 921]); (8086, [7982; 921]); (8087, [7983; 921]); (8088, [7976; 921]); (8089, [7977; 921]);
  (8090, [7978; 921]); (8091, [7979; 921]); (8092, [7980; 921]); (8093, [7981; 921]); (8094, [7982; 921]);
  (8095, [7983; 921]); (8096, [8040; 921]); (8097, [8041; 921]); (8098, [8042; 921]); (8099, [8043; 921]);
  (8100, [8044; 921]); (8101, [8045; 921]); (8102, [8046; 921]); (8103, [8047; 921]); (8104, [8040; 921]);
  (8105, [8041; 921]); (8106, [8042; 921]); (8107, [8043; 921]); (8108, [8044; 921]); (8109, [8045; 921]);
  (8110, [8046; 921]); (8111, [8047; 921]); (8112, [8120]); (8113, [8121]); (8114, [8122; 921]);
  (8115, [913; 921]); (8116, [902; 921]); (8118, [913; 834]); (8119, [913; 834; 921]); (8124, [913; 921]);
  (8126, [921]); (8130, [8138; 921]); (8131, [919; 921]); (8132, [905; 921]); (8134, [919; 834]);
  (8135, [919; 834; 921]); (8140, [919; 921]); (8144, [8152]); (8145, [8153]); (8146, [921; 776; 768]);
  (8147, [921; 776; 769]); (8150, [921; 834]); (8151, [921; 776; 834]); (8160, [8168]); (8161, [8169]);
  (8162, [933; 776; 768]); (8163, [933; 776; 769]); (8164, [929; 787]); (8165, [8172]); (8166, [933; 834]);
  (8167, [933; 776; 834]); (8178, [8186; 921]); (8179, [937; 921]); (8180, [911; 921]); (8182, [937; 834]);
  (8183, [937; 834; 921]); (8188, [937; 921]); (8526, [8498]); (8560, [8544]); (8561, [8545]);
  (8562, [8546]); (8563, [8547]); (8564, [8548]); (8565, [8549]); (8566, [8550]);
  (8567, [8551]); (8568, [8552]); (8569, [8553]); (8570, [8554]); (8571, [8555]);
  (8572, [8556]); (8573, [8557]); (8574, [8558]); (8575, [8559]); (8580, [8579]);
  (9424, [9398]); (9425, [9399]); (9426, [9400]); (9427, [9401]); (9428, [9402]);
  (9429, [9403]); (9430, [9404]); (9431, [9405]); (9432, [9406]); (9433, [9407]);
  (9434, [9408]); (9435, [9409]); (9436, [9410]); (9437, [9411]); (9438, [9412]);
  (9439, [9413]); (9440, [9414]); (9441, [9415]); (9442, [9416]); (9443, [9417]);
  (9444, [9418]); (9445, [9419]); (9446, [9420]); (9447, [9421]); (9448, [9422]);
  (9449, [9423]); (11312, [11264]); (11313, [11265]); (11314, [11266]); (11315, [11267]);
  (11316, [11268]); (11317, [11269]); (11318, [11270]); (11319, [11271]); (11320, [11272]);
  (11321, [11273]); (11322, [11274]); (11323, [11275]); (11324, [11276]); (11325, [11277]);
  (11326, [11278]); (11327, [11279]); (11328, [11280]); (11329, [11281]); (11330, [11282]);
  (11331, [11283]); (11332, [11284]); (11333, [11285]); (11334, [11286]); (11335, [11287]);
  (11336, [11288]); (11337, [11289]); (11338, [11290]); (11339, [11291]); (11340, [11292]);
  (11341, [11293]); (11342, [11294]); (11343, [11295]); (11344, [11296]); (11345, [11297]);
  (11346, [11298]); (11347, [11299]); (11348, [11300]); (11349, [11301]); (11350, [11302]);
  (11351, [11303]); (11352, [11304]); (11353, [11305]); (11354, [11306]); (11355, [11307]);
  (11356, [11308]); (11357, [11309]); (11358, [11310]); (11359, [11311]); (11361, [11360]);
  (11365, [570]); (11366, [574]); (11368, [11367]); (11370, [11369]); (11372, [11371]);
  (11379, [11378]); (11382, [11381]); (11393, [11392]); (11395, [11394]); (11397, [11396]);
  (11399, [11398]); (11401, [11400]); (11403, [11402]); (11405, [11404]); (11407, [11406]);
  (11409, [11408]); (11411, [11410]); (11413, [11412]); (11415, [11414]); (11417, [11416]);
  (11419, [11418]); (11421, [11420]); (11423, [11422]); (11425, [11424]); (11427, [11426]);
  (11429, [11428]); (11431, [11430]); (11433, [11432]); (11435, [11434]); (11437, [11436]);
  (11439, [11438]); (11441, [11440]); (11443, [11442]); (11445, [11444]); (11447, [11446]);
  (11449, [11448]); (11451, [11450]); (11453, [11452]); (11455, [11454]); (11457, [11456]);
  (11459, [11458]); (11461, [11460]); (11463, [11462]); (11465, [11464]); (11467, [11466]);
  (11469, [11468]); (11471, [11470]); (11473, [11472]); (11475, [11474]); (11477, [11476]);
  (11479, [11478]); (11481, [11480]); (11483, [11482]); (11485, [11484]); (11487, [11486]);
  (11489, [11488]); (11491, [11490]); (11500, [11499]); (11502, [11501]); (11507, [11506]);
  (11520, [4256]); (11521, [4257]); (11522, [4258]); (11523, [4259]); (11524, [4260]);
  (11525, [4261]); (11526, [4262]); (11527, [4263]); (11528, [4264]); (11529, [4265]);
  (11530, [4266]); (11531, [4267]); (11532, [4268]); (11533, [4269]); (11534, [4270]);
  (11535, [4271]); (11536, [4272]); (11537, [4273]); (11538, [4274]); (11539, [4275]);
  (11540, [4276]); (11541, [4277]); (11542, [4278]); (11543, [4279]); (11544, [4280]);
  (11545, [4281]); (11546, [4282]); (11547, [4283]); (11548, [4284]); (11549, [4285]);
  (11550, [4286]); (11551, [4287]); (11552, [4288]); (11553, [4289]); (11554, [4290]);
  (11555, [4291]); (11556, [4292]); (11557, [4293]); (11559, [4295]); (11565, [4301]);
  (42561, [42560]); (42563, [42562]); (42565, [42564]); (42567, [42566]); (42569, [42568]);
  (42571, [42570]); (42573, [42572]); (42575, [42574]); (42577, [42576]); (42579, [42578]);
  (42581, [42580]); (42583, [42582]); (42585, [42584]); (42587, [42586]); (42589, [42588]);
  (42591, [42590]); (42593, [42592]); (42595, [42594]); (42597, [42596]); (42599, [42598]);
  (42601, [42600]); (42603, [42602]); (42605, [42604]); (42625, [42624]); (42627, [42626]);
  (42629, [42628]); (42631, [42630]); (42633, [42632]); (42635, [42634]); (42637, [42636]);
  (42639, [42638]); (42641, [42640]); (42643, [42642]); (42645, [42644]); (42647, [42646]);
  (42649, [42648]); (42651, [42650]); (42787, [42786]); (42789, [42788]); (42791, [42790]);
  (42793, [42792]); (42795, [42794]); (42797, [42796]); (42799, [42798]); (42803, [42802]);
  (42805, [42804]); (42807, [42806]); (42809, [42808]); (42811, [42810]); (42813, [42812]);
  (42815, [42814]); (42817, [42816]); (42819, [42818]); (42821, [42820]); (42823, [42822]);
  (42825, [42824]); (42827, [42826]); (42829, [42828]); (42831, [42830]); (42833, [42832]);
  (42835, [42834]); (42837, [42836]); (42839, [42838]); (42841, [42840]); (42843, [42842]);
  (42845, [42844]); (42847, [42846]); (42849, [42848]); (42851, [42850]); (42853, [42852]);
  (42855, [42854]); (42857, [42856]); (42859, [42858]); (42861, [42860]); (42863, [42862]);
  (42874, [42873]); (42876, [42875]); (42879, [42878]); (42881, [42880]); (42883, [42882]);
  (42885, [42884]); (42887, [42886]); (42892, [42891]); (42897, [42896]); (42899, [42898]);
  (42900, [42948]); (42903, [42902]); (42905, [42904]); (42907, [42906]); (42909, [42908]);
  (42911, [42910]); (42913, [42912]); (42915, [42914]); (42917, [42916]); (42919, [42918]);
  (42921, [42920]); (42933, [42932]); (42935, [42934]); (42937, [42936]); (42939, [42938]);
  (42941, [42940]); (42943, [42942]); (42945, [42944]); (42947, [42946]); (42952, [42951]);
  (42954, [42953]); (42961, [42960]); (42967, [42966]); (42969, [42968]); (42998, [42997]);
  (43859, [42931]); (43888, [5024]); (43889, [5025]); (43890, [5026]); (43891, [5027]);
  (43892, [5028]); (43893, [5029]); (43894, [5030]); (43895, [5031]); (43896, [5032]);
  (43897, [5033]); (43898, [5034]); (43899, [5035]); (43900, [5036]); (43901, [5037]);
  (43902, [5038]); (43903, [5039]); (43904, [5040]); (43905, [5041]); (43906, [5042]);
  (43907, [5043]); (43908, [5044]); (43909, [5045]); (43910, [5046]); (43911, [5047]);
  (43912, [5048]); (43913, [5049]); (43914, [5050]); (43915, [5051]); (43916, [5052]);
  (43917, [5053]); (43918, [5054]); (43919, [5055]); (43920, [5056]); (43921, [5057]);
  (43922, [5058]); (43923, [5059]); (43924, [5060]); (43925, [5061]); (43926, [5062]);
  (43927, [5063]); (43928, [5064]); (43929, [5065]); (43930, [5066]); (43931, [5067]);
  (43932, [5068]); (43933, [5069]); (43934, [5070]); (43935, [5071]); (43936, [5072]);
  (43937, [5073]); (43938, [5074]); (43939, [5075]); (43940, [5076]); (43941, [5077]);
  (43942, [5078]); (43943, [5079]); (43944, [5080]); (43945, [5081]); (43946, [5082]);
  (43947, [5083]); (43948, [5084]); (43949, [5085]); (43950, [5086]); (43951, [5087]);
  (43952, [5088]); (43953, [5089]); (43954, [5090]); (43955, [5091]); (43956, [5092]);
  (43957, [5093]); (43958, [5094]); (43959, [5095]); (43960, [5096]); (43961, [5097]);
  (43962, [5098]); (43963, [5099]); (43964, [5100]); (43965, [5101]); (43966, [5102]);
  (43967, [5103]); (64256, [70; 70]); (64257, [70; 73]); (64258, [70; 76]); (64259, [70; 70; 73]);
  (64260, [70; 70; 76]); (64261, [83; 84]); (64262, [83; 84]); (64275, [1348; 1350]); (64276, [1348; 1333]);
  (64277, [1348; 1339]); (64278, [1358; 1350]); (64279, [1348; 1341]); (65345, [65313]); (65346, [65314]);
  (65347, [65315]); (65348, [65316]); (65349, [65317]); (65350, [65318]); (65351, [65319]);
  (65352, [65320]); (65353, [65321]); (65354, [65322]); (65355, [65323]); (65356, [65324]);
  (65357, [65325]); (65358, [65326]); (65359, [65327]); (65360, [65328]); (65361, [65329]);
  (65362, [65330]); (65363, [65331]); (65364, [65332]); (65365, [65333]); (65366, [65334]);
  (65367, [65335]); (65368, [65336]); (65369, [65337]); (65370, [65338]); (66600, [66560]);
  (66601, [66561]); (66602, [66562]); (66603, [66563]); (66604, [66564]); (66605, [66565]);
  (66606, [66566]); (66607, [66567]); (66608, [66568]); (66609, [66569]); (66610, [66570]);
  (66611, [66571]); (66612, [66572]); (66613, [66573]); (66614, [66574]); (66615, [66575]);
  (66616, [66576]); (66617, [66577]); (66618, [66578]); (66619, [66579]); (66620, [66580]);
  (66621, [66581]); (66622, [66582]); (66623, [66583]); (66624, [66584]); (66625, [66585]);
  (66626, [66586]); (66627, [66587]); (66628, [66588]); (66629, [66589]); (66630, [66590]);
  (66631, [66591]); (66632, [66592]); (66633, [66593]); (66634, [66594]); (66635, [66595]);
  (66636, [66596]); (66637, [66597]); (66638, [66598]); (66639, [66599]); (66776, [66736]);
  (66777, [66737]); (66778, [66738]); (66779, [66739]); (66780, [66740]); (66781, [66741]);
  (66782, [66742]); (66783, [66743]); (66784, [66744]); (66785, [66745]); (66786, [66746]);
  (66787, [66747]); (66788, [66748]); (66789, [66749]); (66790, [66750]); (66791, [66751]);
  (66792, [66752]); (66793, [66753]); (66794, [66754]); (66795, [66755]); (66796, [66756]);
  (66797, [66757]); (66798, [66758]); (66799, [66759]); (66800, [66760]); (66801, [66761]);
  (66802, [66762]); (66803, [66763]); (66804, [66764]); (66805, [66765]); (66806, [66766]);
  (66807, [66767]); (66808, [66768]); (66809, [66769]); (66810, [66770]); (66811, [66771]);
  (66967, [66928]); (66968, [66929]); (66969, [66930]); (66970, [66931]); (66971, [66932]);
  (66972, [66933]); (66973, [66934]); (66974, [66935]); (66975, [66936]); (66976, [66937]);
  (66977, [66938]); (66979, [66940]); (66980, [66941]); (66981, [66942]); (66982, [66943]);
  (66983, [66944]); (66984, [66945]); (66985, [66946]); (66986, [66947]); (66987, [66948]);
  (66988, [66949]); (66989, [66950]); (66990, [66951]); (66991, [66952]); (66992, [66953]);
  (66993, [66954]); (66995, [66956]); (66996, [66957]); (66997, [66958]); (66998, [66959]);
  (66999, [66960]); (67000, [66961]); (67001, [66962]); (67003, [66964]); (67004, [66965]);
  (68800, [68736]); (68801, [68737]); (68802, [68738]); (68803, [68739]); (68804, [68740]);
  (68805, [68741]); (68806, [68742]); (68807, [68743]); (68808, [68744]); (68809, [68745]);
  (68810, [68746]); (68811, [68747]); (68812, [68748]); (68813, [68749]); (68814, [68750]);
  (68815, [68751]); (68816, [68752]); (68817, [68753]); (68818, [68754]); (68819, [68755]);
  (68820, [68756]); (68821, [68757]); (68822, [68758]); (68823, [68759]); (68824, [68760]);
  (68825, [68761]); (68826, [68762]); (68827, [68763]); (68828, [68764]); (68829, [68765]);
  (68830, [68766]); (68831, [68767]); (68832, [68768]); (68833, [68769]); (68834, [68770]);
  (68835, [68771]); (68836, [68772]); (68837, [68773]); (68838, [68774]); (68839, [68775]);
  (68840, [68776]); (68841, [68777]); (68842, [68778]); (68843, [68779]); (68844, [68780]);
  (68845, [68781]); (68846, [68782]); (68847, [68783]); (68848, [68784]); (68849, [68785]);
  (68850, [68786]); (71872, [71840]); (71873, [71841]); (71874, [71842]); (71875, [71843]);
  (71876, [71844]); (71877, [71845]); (71878, [71846]); (71879, [71847]); (71880, [71848]);
  (71881, [71849]); (71882, [71850]); (71883, [71851]); (71884, [71852]); (71885, [71853]);
  (71886, [71854]); (71887, [71855]); (71888, [71856]); (71889, [71857]); (71890, [71858]);
  (71891, [71859]); (71892, [71860]); (71893, [71861]); (71894, [71862]); (71895, [71863]);
  (71896, [71864]); (71897, [71865]); (71898, [71866]); (71899, [71867]); (71900, [71868]);
  (71901, [71869]); (71902, [71870]); (71903, [71871]); (93792, [93760]); (93793, [93761]);
  (93794, [93762]); (93795, [93763]); (93796, [93764]); (93797, [93765]); (93798, [93766]);
  (93799, [93767]); (93800, [93768]); (93801, [93769]); (93802, [93770]); (93803, [93771]);
  (93804, [93772]); (93805, [93773]); (93806, [93774]); (93807, [93775]); (93808, [93776]);
  (93809, [93777]); (93810, [93778]); (93811, [93779]); (93812, [93780]); (93813, [93781]);
  (93814, [93782]); (93815, [93783]); (93816, [93784]); (93817, [93785]); (93818, [93786]);
  (93819, [93787]); (93820, [93788]); (93821, [93789]); (93822, [93790]); (93823, [93791]);
  (125218, [125184]); (125219, [125185]); (125220, [125186]); (125221, [125187]); (125222, [125188]);
  (125223, [125189]); (125224, [125190]); (125225, [125191]); (125226, [125192]); (125227, [125193]);
  (125228, [125194]); (125229, [125195]); (125230, [125196]); (125231, [125197]); (125232, [125198]);
  (125233, [125199]); (125234, [125200]); (125235, [125201]); (125236, [125202]); (125237, [125203]);
  (125238, [125204]); (125239, [125205]); (125240, [125206]); (125241, [125207]); (125242, [125208]);
  (125243, [125209]); (125244, [125210]); (125245, [125211]); (125246, [125212]); (125247, [125213]);
  (125248, [125214]); (125249, [125215]); (125250, [125216]); (125251, [125217])
]%N.

Fixpoint lookup_table (c : N) (table : list (N * list N)) : option (list N) :=
  match table with
  | [] => None
  | (k, e) :: rest => if (c =? k)%N then Some e else lookup_table c rest
  end.

(** The letters a-z moved to A-Z: upper case within ASCII. *)
Definition upper_ascii_char (c : N) : N :=
  if ((97 <=? c) && (c <=? 122))%N then (c - 32)%N else c.

(** [c.upper()] for one character; the result may be longer than one. *)
Definition upper_char (c : N) : str :=
  if (c <? 128)%N
  then Str (upper_ascii_char c) EmptyStr
  else match lookup_table c upper_table with
       | Some e => of_list e
       | None => Str c EmptyStr
       end.

(** [s.upper()] *)
Fixpoint upper (s : str) : str :=
  match s with
  | EmptyStr => EmptyStr
  | Str c rest => upper_char c +:+ upper rest
  end.

(** [s.upper()] for a text in ASCII. *)
Fixpoint upper_ascii (s : str) : str :=
  match s with
  | EmptyStr => EmptyStr
  | Str c rest => Str (upper_ascii_char c) (upper_ascii rest)
  end.

(** No entry of the table maps a code point to text that starts with it. *)
Definition upper_table_moves : bool :=
  forallb (λ '(k, e), match e with d :: _ => negb (d =? k)%N | [] => false end) upper_table.

(** The letters A-Z moved to a-z: the case folding of the specification
    side, for text in ASCII. *)
Definition lower_char (c : N) : N :=
  if ((65 <=? c) && (c <=? 90))%N then (c + 32)%N else c.

Fixpoint lower (s : str) : str :=
  match s with
  | EmptyStr => EmptyStr
  | Str c rest => Str (lower_char c) (lower rest)
  end.

(** [hay.startswith(needle)] *)
Fixpoint startswith (needle hay : str) : bool :=
  match needle, hay with
  | EmptyStr, _ => true
  | Str _ _, EmptyStr => false
  | Str a n, Str b h => if (a =? b)%N then startswith n h else false
  end.

(** [needle in hay]: the substring test of Python's [in] on [str]. *)
Fixpoint str_in (needle hay : str) : bool :=
  startswith needle hay ||
  match hay with
  | EmptyStr => false
  | Str _ rest => str_in needle rest
  end.

(** [len(s)] *)
Definition len (s : str) : Z := Z.of_nat (length s).

(** [s[:n]] for a literal [n >= 0]. *)
Fixpoint slice_to (n : nat) (s : str) : str :=
  match n, s with
  | S k, Str c rest => Str c (slice_to k rest)
  | _, _ => EmptyStr
  end.

(** [bool(s)]: a string is truthy when it is not empty. *)
Definition truthy (s : str) : bool :=
  match s with EmptyStr => false | Str _ _ => true end.

(** [any(p(x) for x in xs)] *)
Definition any {A} (p : A → bool) (xs : list A) : bool := existsb p xs.

(** The UTF-8 form of [s]. *)
Definition utf8 (s : str) : bytes :=
  String.string_of_list_ascii (ascii_of_N <$> Utf8.encode s).

(** A string that holds a lone surrogate has no UTF-8 form. *)
Definition encodable (s : str) : bool := Utf8.all_scalar s.

(** [s.encode()]; [None] stands for the [UnicodeEncodeError] a lone
    surrogate raises. *)
Definition encode (s : str) : option bytes :=
  if encodable s then Some (utf8 s) else None.

(** *** Specification-side notions *)

(** [needle] occurs in [hay] as a contiguous substring. *)
Definition Contains (needle hay : str) : Prop :=
  ∃ pre post, hay = pre +:+ needle +:+ post.

(** Two strings are equal up to the case of their (ASCII) letters. *)
Definition eq_nocase (s t : str) : Prop := lower s = lower t.

(** [needle] occurs in [hay] when the case of letters is ignored. *)
Definition ContainsNoCase (needle hay : str) : Prop :=
  ∃ pre mid post, hay = pre +:+ mid +:+ post ∧ eq_nocase mid needle.

(** [p] is the string of the first [n] characters of [s]. *)
Definition FirstChars (n : nat) (s p : str) : Prop :=
  length p = n ∧ ∃ rest, s = p +:+ rest.

(** Every character of [s] is in ASCII. *)
Fixpoint is_ascii (s : str) : bool :=
  match s with
  | EmptyStr => true
  | Str c rest => (c <? 128)%N && is_ascii rest
  end.

End PyStr.

#[global] Instance str_eq_dec : EqDecision str.
Proof. solve_decision. Defined.

#[global] Instance str_countable : Countable str.
Proof.
  refine (inj_countable' PyStr.to_list PyStr.of_list _).
  intros s. induction s as [|c s IH]; simpl; congruence.
Defined.

(** ** The world a program runs in *)

(** The messages of the [ValueError]s the modelled code can meet. *)
Inductive value_error :=
| ClosedFile                       (* "I/O operation on closed file." *)
| InvalidLiteral (literal : str)   (* "invalid literal for int() with base 10: " and the repr of the literal *)
| ExceedsDigits (limit digits : Z). (* "Exceeds the limit (<limit> digits) for integer string conversion: value has <digits> digits; ..." *)

(** The exceptions the modelled code can raise. *)
Inductive exn :=
| SystemExit (code : Z)          (* sys.exit(code) *)
| ValueError (why : value_error) (* int() on a malformed literal; I/O on a closed file *)
| OverflowError                  (* bind() with a port outside 0..65535 *)
| OSError                        (* bind() refused by the operating system *)
| UnicodeEncodeError.            (* str.encode() on a lone surrogate *)

(** What the process does to the outside, in the order it does it. *)
Inductive event :=
| Stdout (text : str)            (* print(text, file=sys.stdout) *)
| StdoutFlush                    (* sys.stdout.flush() *)
| Stderr (text : str)            (* print(text, file=sys.stderr) *)
| AccessLog (code : Z)           (* http.server's log_request(code): a line on sys.stderr
                                    with the peer, the date and the request line *)
| SendResponse (code : Z)        (* the status line and the Server and Date headers *)
| EndHeaders                     (* self.end_headers() *)
| WfileWrite (data : bytes)      (* self.wfile.write(data) *)
| Listen (host : str) (port : Z) (* a socket listening on (host, port), the port being
                                    the one the socket got *)
| IgnoredRun                     (* Flask's notice that a call of app.run() is ignored *)
| InheritedSocket                (* Werkzeug serves on the socket its reloader handed down *)
| Traceback (e : exn).           (* socketserver's handle_error report *)

Record World := mkWorld {
  environ : gmap str str;        (* os.environ *)
  ctime : str;                   (* what time.ctime() returns *)
  time_time : Q;                 (* what time.time() returns (a float, as the rational it denotes) *)
  int_max_str_digits : Z;        (* sys.get_int_max_str_digits(); 0 for no limit *)
  bind_granted : bool;           (* the operating system grants the address a bind asks for *)
  free_port : Z;                 (* the port the kernel picks for a bind to port 0 *)
  stdout_closed : bool;          (* sys.stdout.closed *)
  stderr_closed : bool;          (* sys.stderr.closed *)
  trace : list event             (* the events so far, oldest first *)
}.

Inductive outcome (A : Type) :=
| Return (a : A)
| Raise (e : exn).
Arguments Return {A} a.
Arguments Raise {A} e.

(** A computation: from a world to an outcome and the world after it. *)
Definition Py (A : Type) : Type := World → outcome A * World.

Definition run {A} (m : Py A) (w : World) : outcome A * World := m w.

#[global] Instance Py_ret : MRet Py := λ A a w, (Return a, w).
#[global] Instance Py_bind : MBind Py := λ A B f m w,
  match m w with
  | (Return a, w') => f a w'
  | (Raise e, w') => (Raise e, w')
  end.

Definition raise {A} (e : exn) : Py A := λ w, (Raise e, w).

Definition emit (e : event) : Py unit := λ w,
  (Return tt,
   {| environ := environ w; ctime := ctime w; time_time := time_time w;
      int_max_str_digits := int_max_str_digits w; bind_granted := bind_granted w;
     free_port := free_port w;
      stdout_closed := stdout_closed w; stderr_closed := stderr_closed w;
      trace := trace w ++ [e] |}).

Definition closed_file : exn := ValueError ClosedFile.

(** [os.environ.get(key)]: [None] when the name is not set. *)
Definition environ_get (key : str) : Py (option str) :=
  λ w, (Return (environ w !! key), w).

(** [os.environ.get(key, dflt)] *)
Definition environ_get_default (key dflt : str) : Py str :=
  λ w, (Return (default dflt (environ w !! key)), w).

(** [os.environ.items()] *)
Definition environ_items : Py (list (str * str)) :=
  λ w, (Return (map_to_list (environ w)), w).

(** [time.ctime()] and [time.time()] *)
Definition get_ctime : Py str := λ w, (Return (ctime w), w).
Definition get_time : Py Q := λ w, (Return (time_time w), w).

(** [sys.get_int_max_str_digits()] *)
Definition get_int_max_str_digits : Py Z := λ w, (Return (int_max_str_digits w), w).

(** Time passes: [time.ctime()] now reads [t].  An action of the
    environment, not of the program. *)
Definition at_ctime (t : str) (w : World) : World :=
  {| environ := environ w; ctime := t; time_time := time_time w;
     int_max_str_digits := int_max_str_digits w; bind_granted := bind_granted w;
     free_port := free_port w;
     stdout_closed := stdout_closed w; stderr_closed := stderr_closed w;
     trace := trace w |}.

Definition clock_reads (t : str) : Py unit := λ w, (Return tt, at_ctime t w).

(** [print(text, file=sys.stdout)]: writing to a closed file raises.  The
    standard streams take any text: they are in UTF-8 with the handlers
    surrogateescape ([sys.stdout]) and backslashreplace ([sys.stderr]), as
    the interpreter sets them up in the C and C.UTF-8 locales of a
    container. *)
Definition print_stdout (text : str) : Py unit :=
  λ w, if stdout_closed w then (Raise closed_file, w) else emit (Stdout text) w.

(** [sys.stdout.flush()] *)
Definition flush_stdout : Py unit :=
  λ w, if stdout_closed w then (Raise closed_file, w) else emit StdoutFlush w.

(** [print(text, file=sys.stderr)] *)
Definition print_stderr (text : str) : Py unit :=
  λ w, if stderr_closed w then (Raise closed_file, w) else emit (Stderr text) w.

(** [sys.exit(code)] *)
Definition sys_exit {A} (code : Z) : Py A := raise (SystemExit code).

(** [socket.bind((host, port))] and [listen]: a port outside 0..65535 is
    refused before the operating system is asked; the operating system
    may refuse the address (in use, no permission); port 0 asks it for a
    free port of its choice. *)
Definition socket_bind (host : str) (port : Z) : Py unit :=
  if decide (0 ≤ port ≤ 65535)
  then λ w, if bind_granted w
            then emit (Listen host (if decide (port = 0) then free_port w else port)) w
            else (Raise OSError, w)
  else raise OverflowError.

(** ** Integers and their literals *)

Module PyInt.

(** The blanks beyond ASCII ([str.isspace]). *)
Definition spaces_hi : list N := [
  133; 160; 5760; 8192; 8193; 8194; 8195; 8196; 8197; 8198; 8199; 8200; 8201; 8202; 8232; 8233; 8239; 8287; 12288
]%N.

(** The digit zero of every decimal script beyond ASCII; the nine code
    points after each are its digits one to nine. *)
Definition decimal_zeros : list N := [
  1632; 1776; 1984; 2406; 2534; 2662; 2790; 2918; 3046; 3174;
  3302; 3430; 3558; 3664; 3792; 3872; 4160; 4240; 6112; 6160;
  6470; 6608; 6784; 6800; 6992; 7088; 7232; 7248; 42528; 43216;
  43264; 43472; 43504; 43600; 44016; 65296; 66720; 68912; 69734; 69872;
  69942; 70096; 70384; 70736; 70864; 71248; 71360; 71472; 71904; 72016;
  72784; 73040; 73120; 92768; 92864; 93008; 120782; 120792; 120802; 120812;
  120822; 123200; 123632; 125264; 130032
]%N.

(** The characters [int] strips at both ends: the blanks [int] knows, which
    are those of [str.isspace] but for the separators U+001C..U+001F. *)
Definition is_space (c : N) : bool :=
  (((9 <=? c) && (c <=? 13)) || (c =? 32) || existsb (N.eqb c) spaces_hi)%N.

Fixpoint digit_in (c : N) (zeros : list N) : option Z :=
  match zeros with
  | [] => None
  | z :: rest =>
      if ((z <=? c) && (c <=? z + 9))%N then Some (Z.of_N (c - z)) else digit_in c rest
  end.

(** The value of a decimal digit of any script. *)
Definition digit (c : N) : option Z :=
  if ((48 <=? c) && (c <=? 57))%N then Some (Z.of_N (c - 48))
  else if (c <? 128)%N then None
  else digit_in c decimal_zeros.

Fixpoint lstrip (s : str) : str :=
  match s with
  | Str c r => if is_space c then lstrip r else s
  | EmptyStr => EmptyStr
  end.

(** What the scan of the digits has just read. *)
Inductive prev := AtStart | AfterDigit | AfterUnderscore.

(** The digits of a literal, most significant first; single underscores
    may separate digits.  The scan stops at the first character that is
    neither; it gives the value, the number of digits and what is left, or
    [None] for a misplaced underscore. *)
Fixpoint scan (s : str) (acc count : Z) (p : prev) : option (Z * Z * str) :=
  let stop := match p with AfterUnderscore => None | _ => Some (acc, count, s) end in
  match s with
  | EmptyStr => stop
  | Str c r =>
      match digit c with
      | Some d => scan r (10 * acc + d) (count + 1) AfterDigit
      | None =>
          if (c =? 95)%N
          then match p with AfterDigit => scan r acc count AfterUnderscore | _ => None end
          else stop
      end
  end.

(** [int(s)] for a [str], under the digit limit [limit] (0: none), which
    is looked at for literals of more than 640 digits. *)
Definition of_str (limit : Z) (s : str) : Z + value_error :=
  let t := lstrip s in
  let '(negative, t) :=
    match t with
    | Str c r => if (c =? 43)%N then (false, r)
                 else if (c =? 45)%N then (true, r) else (false, t)
    | EmptyStr => (false, t)
    end in
  match scan t 0 0 AtStart with
  | None => inr (InvalidLiteral s)
  | Some (acc, count, rest) =>
      if (640 <? count) && (0 <? limit) && (limit <? count)
      then inr (ExceedsDigits limit count)
      else if count =? 0 then inr (InvalidLiteral s)
      else match lstrip rest with
           | EmptyStr => inl (if negative then - acc else acc)
           | Str _ _ => inr (InvalidLiteral s)
           end
  end.

Fixpoint uint_str (d : Decimal.uint) : str :=
  match d with
  | Nil => EmptyStr
  | D0 d => Str 48 (uint_str d)
  | D1 d => Str 49 (uint_str d)
  | D2 d => Str 50 (uint_str d)
  | D3 d => Str 51 (uint_str d)
  | D4 d => Str 52 (uint_str d)
  | D5 d => Str 53 (uint_str d)
  | D6 d => Str 54 (uint_str d)
  | D7 d => Str 55 (uint_str d)
  | D8 d => Str 56 (uint_str d)
  | D9 d => Str 57 (uint_str d)
  end.

(** [str(n)] *)
Definition to_str (n : Z) : str :=
  match Z.to_int n with
  | Decimal.Pos d => uint_str d
  | Decimal.Neg d => Str 45 (uint_str d)
  end.

End PyInt.

Definition nl : str := Str 10 EmptyStr.

(** ** examples/feature-test/app.py *)

Module FeatureTest.

(** [PORT = int(os.environ.get("PORT", 8080))] *)
Definition PORT : Py Z :=
  v ← environ_get "PORT";
  match v with
  | None => mret 8080
  | Some s =>
      limit ← get_int_max_str_digits;
      match PyInt.of_str limit s with
      | inl n => mret n
      | inr why => raise (ValueError why)
      end
  end.

(** [self.send_response(code)] of [BaseHTTPRequestHandler]: the request is
    logged on [sys.stderr] first, then the status line and the Server and
    Date headers are put in the headers buffer. *)
Definition send_response (code : Z) : Py unit :=
  λ w, if stderr_closed w then (Raise closed_file, w)
       else (emit (AccessLog code);; emit (SendResponse code)) w.

(** [self.wfile.write(body.encode())] *)
Definition write_encoded (body : str) : Py unit :=
  match PyStr.encode body with
  | Some data => emit (WfileWrite data)
  | None => raise UnicodeEncodeError
  end.

(** [Handler.do_GET], with [self.path] as argument. *)
Definition do_GET (path : str) : Py unit :=
  now ← get_ctime;
  print_stdout ("[" +:+ now +:+ "] 📥 Request: " +:+ path);;
  flush_stdout;;
  if decide (path = "/health") then
    send_response 200;;
    emit EndHeaders;;
    emit (WfileWrite "OK")
  else if decide (path = "/crash") then
    print_stderr "💥 CRASHING NOW...";;
    sys_exit 1
  else
    send_response 200;;
    emit EndHeaders;;
    hostname ← environ_get_default "HOSTNAME" "unknown";
    secret ← environ_get_default "SECRET_KEY" "NOT_SET";
    let body := "🚀 Hello from Arcane!" +:+ nl +:+
                "Hostname: " +:+ hostname +:+ nl +:+
                "Secret: " +:+ secret +:+ nl in
    write_encoded body.

(** [HTTPServer((host, port), Handler)]: the constructor binds and listens. *)
Definition HTTPServer (host : str) (port : Z) : Py unit := socket_bind host port.

(** socketserver's [handle_error]: the report goes to [sys.stderr]. *)
Definition handle_error (e : exn) : Py unit :=
  λ w, if stderr_closed w then (Raise closed_file, w) else emit (Traceback e) w.

(** A GET request as the server loop sees it: the path of its request
    line ([self.path], the query string included), and the reading of
    [time.ctime()] while it is handled. *)
Record request := mkRequest { arrival : str; req_path : str }.

(** [serve_forever()] over the requests that arrive, in order.  A handler
    that raises an [Exception] is reported and the loop goes on;
    [SystemExit] is not an [Exception] and leaves the loop. *)
Fixpoint serve_forever (requests : list request) : Py unit :=
  match requests with
  | [] => mret tt
  | r :: rest => λ w,
      match (clock_reads (arrival r);; do_GET (req_path r)) w with
      | (Return _, w') => serve_forever rest w'
      | (Raise (SystemExit code), w') => (Raise (SystemExit code), w')
      | (Raise e, w') => (handle_error e;; serve_forever rest) w'
      end
  end.

(** The module's top level. *)
Definition main (requests : list request) : Py unit :=
  port ← PORT;
  print_stdout ("🔥 Arcane Feature Test App starting on port " +:+
                PyInt.to_str port +:+ "...");;
  flush_stdout;;
  HTTPServer "0.0.0.0" port;;
  serve_forever requests.

End FeatureTest.

(** How the interpreter ends: an outcome of the top level as a process
    status.  A finished model run of a server that has raised nothing is a
    server still waiting for connections. *)
Inductive status :=
| Running
| Exited (code : Z).

Definition exit_status {A} (o : outcome A) : status :=
  match o with
  | Return _ => Running
  | Raise (SystemExit code) => Exited code
  | Raise _ => Exited 1
  end.

(** ** Flask, as far as api.py calls it *)

Module Flask.

(** [app.run(host=..., port=..., debug=...)].  Under the [flask] command
    (FLASK_RUN_FROM_CLI is "true") the call is ignored, with a notice
    unless this is the reloader's child; in the reloader's child
    (WERKZEUG_RUN_MAIN is "true") the server takes the socket the parent
    bound; otherwise the address is bound here. *)
Definition run (host : str) (port : Z) (debug : bool) : Py unit :=
  from_cli ← environ_get "FLASK_RUN_FROM_CLI";
  run_main ← environ_get "WERKZEUG_RUN_MAIN";
  if decide (from_cli = Some "true") then
    if decide (run_main = Some "true") then mret tt else emit IgnoredRun
  else if decide (run_main = Some "true") then emit InheritedSocket
  else socket_bind host port.

End Flask.

(** ** examples/full-stack-demo/api.py *)

Module Api.

Inductive jvalue :=
| JStr (s : str)
| JBool (b : bool)
| JNum (q : Q).

Inductive payload :=
| Text (s : str)
| Json (obj : gmap str jvalue).

Record response := mkResponse { status_code : Z; body : payload }.

(** A dict display [{k1: v1, k2: v2, ...}]: entries are stored in order,
    a later one replacing an earlier one under the same key. *)
Definition dict {V} (entries : list (str * V)) : gmap str V :=
  foldl (λ d kv, <[kv.1 := kv.2]> d) ∅ entries.

(** [jsonify(d)]: a JSON response, status 200. *)
Definition jsonify (d : gmap str jvalue) : response :=
  {| status_code := 200; body := Json d |}.

(** [bool(os.environ.get(key))]: [None] and [''] are falsy. *)
Definition py_bool (v : option str) : bool :=
  match v with
  | None => false
  | Some s => PyStr.truthy s
  end.

Definition health : Py response :=
  mret {| status_code := 200; body := Text "OK" |}.

Definition index : Py response :=
  env ← environ_get_default "APP_ENV" "unknown";
  ts ← get_time;
  mret (jsonify (dict [("service", JStr "Full-Stack Demo API");
                       ("version", JStr "1.0.0");
                       ("environment", JStr env);
                       ("timestamp", JNum ts)])).

Definition secrets : list str := ["KEY"; "SECRET"; "PASSWORD"; "TOKEN"].

(** [any(secret in key.upper() for secret in [...])] *)
Definition is_sensitive (key : str) : bool :=
  PyStr.any (λ secret, PyStr.str_in secret (PyStr.upper key)) secrets.

(** [value[:4] + '****' if len(value) > 4 else '****'] *)
Definition mask (value : str) : str :=
  if PyStr.len value >? 4 then PyStr.slice_to 4 value +:+ "****" else "****".

(** One turn of the loop of [show_env]. *)
Definition show_env_step (safe_env : gmap str str) (kv : str * str)
  : gmap str str :=
  let '(key, value) := kv in
  if is_sensitive key then <[key := mask value]> safe_env
  else <[key := value]> safe_env.

Definition show_env : Py response :=
  items ← environ_items;
  let safe_env := foldl show_env_step ∅ items in
  mret (jsonify (JStr <$> safe_env)).

Definition configured (ok : bool) : jvalue :=
  JStr (if ok then "configured" else "not configured").

Definition db_check : Py response :=
  db_url ← environ_get_default "DATABASE_URL" "not configured";
  mret (jsonify (dict [("database", configured (PyStr.str_in "postgres" db_url))])).

Definition cache_check : Py response :=
  redis_url ← environ_get_default "REDIS_URL" "not configured";
  mret (jsonify (dict [("redis", configured (PyStr.str_in "redis" redis_url))])).

Definition queue_check : Py response :=
  mq_url ← environ_get_default "RABBITMQ_URL" "not configured";
  mret (jsonify (dict [("rabbitmq", configured (PyStr.str_in "amqp" mq_url))])).

Definition services : Py response :=
  database ← environ_get "DATABASE_URL";
  redis ← environ_get "REDIS_URL";
  rabbitmq ← environ_get "RABBITMQ_URL";
  stripe ← environ_get "STRIPE_SECRET_KEY";
  sendgrid ← environ_get "SENDGRID_API_KEY";
  twilio ← environ_get "TWILIO_ACCOUNT_SID";
  aws ← environ_get "AWS_ACCESS_KEY_ID";
  google_oauth ← environ_get "GOOGLE_CLIENT_ID";
  github_oauth ← environ_get "GITHUB_CLIENT_ID";
  sentry ← environ_get "SENTRY_DSN";
  openai ← environ_get "OPENAI_API_KEY";
  mret (jsonify (dict [("database", JBool (py_bool database));
                       ("redis", JBool (py_bool redis));
                       ("rabbitmq", JBool (py_bool rabbitmq));
                       ("stripe", JBool (py_bool stripe));
                       ("sendgrid", JBool (py_bool sendgrid));
                       ("twilio", JBool (py_bool twilio));
                       ("aws", JBool (py_bool aws));
                       ("google_oauth", JBool (py_bool google_oauth));
                       ("github_oauth", JBool (py_bool github_oauth));
                       ("sentry", JBool (py_bool sentry));
                       ("openai", JBool (py_bool openai))])).

(** The routes registered with [@app.route]; any other path is Flask's
    404 page. *)
Definition routes : list (str * Py response) :=
  [("/health", health); ("/", index); ("/env", show_env);
   ("/db-check", db_check); ("/cache-check", cache_check);
   ("/queue-check", queue_check); ("/services", services)].

Definition not_found : response :=
  {| status_code := 404; body := Text "Not Found" |}.

Fixpoint dispatch (table : list (str * Py response)) (path : str) : Py response :=
  match table with
  | [] => mret not_found
  | (rule, view) :: rest => if decide (path = rule) then view else dispatch rest path
  end.

Definition app (path : str) : Py response := dispatch routes path.

(** [app.run(host='0.0.0.0', port=8080, debug=True)] *)
Definition main : Py unit := Flask.run "0.0.0.0" 8080 true.

End Api.

(** ** examples/full-stack-demo/worker.py *)

Module Worker.

(** ['✅' if os.environ.get(key) else '❌'] *)
Definition flag (v : option str) : str :=
  if Api.py_bool v then "✅" else "❌".

(** [time.sleep(seconds)]: time passes, nothing is read or written.  What
    the clock shows afterwards is part of the next reading. *)
Definition sleep (seconds : Z) : Py unit := mret tt.

(** The lines printed before the loop. *)
Definition startup : Py unit :=
  print_stdout "🔧 Starting Background Worker...";;
  app_env ← environ_get_default "APP_ENV" "unknown";
  print_stdout ("   Environment: " +:+ app_env);;
  database ← environ_get "DATABASE_URL";
  print_stdout ("   Database: " +:+ flag database);;
  redis ← environ_get "REDIS_URL";
  print_stdout ("   Redis: " +:+ flag redis);;
  rabbitmq ← environ_get "RABBITMQ_URL";
  print_stdout ("   RabbitMQ: " +:+ flag rabbitmq);;
  flush_stdout.

(** One turn of the loop, with the two readings of
    [time.strftime('%Y-%m-%d %H:%M:%S')] it makes: before and after the
    sleep. *)
Record turn := mkTurn { waiting_at : str; heartbeat_at : str }.

Definition cycle (t : turn) : Py unit :=
  print_stdout ("[" +:+ waiting_at t +:+ "] 💤 Waiting for jobs...");;
  flush_stdout;;
  sleep 30;;
  print_stdout ("[" +:+ heartbeat_at t +:+ "] ✅ Heartbeat OK");;
  flush_stdout.

(** [while True: ...] over the turns that take place. *)
Fixpoint loop (turns : list turn) : Py unit :=
  match turns with
  | [] => mret tt
  | t :: rest => cycle t;; loop rest
  end.

(** The module's top level. *)
Definition main (turns : list turn) : Py unit :=
  startup;;
  loop turns.

End Worker.

(** What one turn of the loop of [show_env] stores under [key]. *)
Definition shown (key value : str) : str :=
  if Api.is_sensitive key then Api.mask value else value.

(** The world of a fresh process with environment [env]: both standard
    streams open, the default digit limit, binds granted, nothing done yet. *)
Definition fresh (env : gmap str str) : World :=
  {| environ := env; ctime := "Tue Nov  3 10:44:00 2026"; time_time := 1793702640;
     int_max_str_digits := 4300; bind_granted := true; free_port := 49152;
     stdout_closed := false; stderr_closed := false; trace := [] |}.

(** The same, after [sys.stdout] has been closed. *)
Definition stdout_gone (env : gmap str str) : World :=
  {| environ := env; ctime := "Tue Nov  3 10:44:00 2026"; time_time := 1793702640;
     int_max_str_digits := 4300; bind_granted := true; free_port := 49152;
     stdout_closed := true; stderr_closed := false; trace := [] |}.

(** ** The contract of the routes, in the words of the specification *)

Module Spec.

Definition sensitive_words : list str := ["KEY"; "SECRET"; "PASSWORD"; "TOKEN"].

Definition mask_marker : str := "****".

(** The sensitivity predicate: the key contains one of the words, the case
    of letters being ignored, that is, once the key is put in upper case. *)
Definition Sensitive (key : str) : Prop :=
  ∃ word, word ∈ sensitive_words ∧ PyStr.Contains word (PyStr.upper key).

(** The same for a key in ASCII, without reference to [str.upper]: some run
    of characters of the key is the word up to the case of its letters. *)
Definition SensitiveAscii (key : str) : Prop :=
  ∃ word, word ∈ sensitive_words ∧ PyStr.ContainsNoCase word key.

(** What [/env] shows for an entry [key = raw]. *)
Inductive EnvView (key raw : str) : str → Prop :=
| view_masked_long (p : str) :
    Sensitive key → (4 < PyStr.length raw)%nat → PyStr.FirstChars 4 raw p →
    EnvView key raw (p +:+ mask_marker)
| view_masked_short :
    Sensitive key → (PyStr.length raw ≤ 4)%nat →
    EnvView key raw mask_marker
| view_plain :
    ¬ Sensitive key →
    EnvView key raw raw.

(** The status string of a dependency check. *)
Definition configured : str := "configured".
Definition not_configured : str := "not configured".

(** The dependencies [/services] reports on, each with its configuration key. *)
Definition dependencies : list (str * str) :=
  [("database", "DATABASE_URL"); ("redis", "REDIS_URL");
   ("rabbitmq", "RABBITMQ_URL"); ("stripe", "STRIPE_SECRET_KEY");
   ("sendgrid", "SENDGRID_API_KEY"); ("twilio", "TWILIO_ACCOUNT_SID");
   ("aws", "AWS_ACCESS_KEY_ID"); ("google_oauth", "GOOGLE_CLIENT_ID");
   ("github_oauth", "GITHUB_CLIENT_ID"); ("sentry", "SENTRY_DSN");
   ("openai", "OPENAI_API_KEY")].

(** A configuration key is present with a non-empty value. *)
Definition Present (env : gmap str str) (key : str) : Prop :=
  ∃ v, env !! key = Some v ∧ v ≠ "".

End Spec.

(** The answer of [services], as a function of the environment. *)
Definition descriptor (env : gmap str str) : gmap str Api.jvalue :=
  Api.dict ((λ dep, (dep.1, Api.JBool (Api.py_bool (env !! dep.2)))) <$> Spec.dependencies).

(** ** Frames *)

(** The world [w] after the events [evs] have been added to its trace. *)
Definition logged (evs : list event) (w : World) : World :=
  {| environ := environ w; ctime := ctime w; time_time := time_time w;
     int_max_str_digits := int_max_str_digits w; bind_granted := bind_granted w;
     free_port := free_port w;
     stdout_closed := stdout_closed w; stderr_closed := stderr_closed w;
     trace := trace w ++ evs |}.

(** A computation that reads the world and leaves it as it is. *)
Definition pure_read {A} (m : Py A) : Prop := ∀ w, (run m w).2 = w.

(** A computation whose only mark on the world is what it adds to the trace. *)
Definition only_logs {A} (m : Py A) : Prop := ∀ w, ∃ evs, (run m w).2 = logged evs w.

(** A computation that leaves [os.environ] and the state of the standard
    streams as they are. *)
Definition keeps_config {A} (m : Py A) : Prop :=
  ∀ w, environ (run m w).2 = environ w ∧
       stdout_closed (run m w).2 = stdout_closed w ∧
       stderr_closed (run m w).2 = stderr_closed w.

(** The line [do_GET] prints for a request. *)
Definition request_line (now path : str) : str :=
  "[" +:+ now +:+ "] 📥 Request: " +:+ path.

(** [unlines [l1; ...; ln]]: each line followed by a newline. *)
Fixpoint unlines (lines : list str) : str :=
  match lines with
  | [] => ""
  | l :: rest => l +:+ nl +:+ unlines rest
  end.

(** The three lines of the fallback page, for a given environment. *)
Definition fallback_lines (env : gmap str str) : list str :=
  ["🚀 Hello from Arcane!";
   "Hostname: " +:+ default "unknown" (env !! "HOSTNAME");
   "Secret: " +:+ default "NOT_SET" (env !! "SECRET_KEY")].




(** Logging that cannot fail a request: whatever the state of the standard
    streams, a request for a page is answered. *)
Definition logging_is_best_effort : Prop :=
  ∀ path w, path ≠ "/crash" →
    ∃ w', run (FeatureTest.do_GET path) w = (Return tt, w') ∧
          SendResponse 200 ∈ trace w'.

(** A fallback page that is always written: in a process with both
    standard streams open, any path other than the two fixed routes gets
    the three lines as its body. *)
Definition fallback_always_written : Prop :=
  ∀ path w, stdout_closed w = false → stderr_closed w = false →
    path ≠ "/health" → path ≠ "/crash" →
    ∃ w', run (FeatureTest.do_GET path) w = (Return tt, w') ∧
          WfileWrite (PyStr.utf8 (unlines (fallback_lines (environ w)))) ∈ trace w'.

(** ** Reading a trace *)

(** The status codes sent, in order. *)
Fixpoint statuses (evs : list event) : list Z :=
  match evs with
  | [] => []
  | SendResponse code :: rest => code :: statuses rest
  | _ :: rest => statuses rest
  end.

(** The bodies written to connections, in order. *)
Fixpoint bodies (evs : list event) : list bytes :=
  match evs with
  | [] => []
  | WfileWrite data :: rest => data :: bodies rest
  | _ :: rest => bodies rest
  end.



(** * Properties *)

(** ** Strings *)

Section Strings.
Import PyStr.

Lemma str_app_nil_r s : s +:+ "" = s.
Proof. induction s; simpl; congruence. Qed.

Lemma str_app_assoc s t u : (s +:+ t) +:+ u = s +:+ t +:+ u.
Proof. induction s; simpl; congruence. Qed.

Lemma startswith_spec needle hay :
  startswith needle hay = true ↔ ∃ rest, hay = needle +:+ rest.
Proof.
  revert hay. induction needle as [|a n IH]; intros hay; simpl.
  - split; [intros _; by exists hay | done].
  - destruct hay as [|b h].
    + split; [done | intros [rest Hrest]; discriminate].
    + destruct (N.eqb_spec a b) as [->|Hab].
      * rewrite IH. split; intros [rest Hrest]; exists rest; simpl in *; congruence.
      * split; [done | intros [rest Hrest]; by simplify_eq].
Qed.

Lemma str_in_spec needle hay : str_in needle hay = true ↔ Contains needle hay.
Proof.
  unfold Contains. induction hay as [|b h IH].
  - simpl. rewrite orb_false_r, startswith_spec. split.
    + intros [rest Hrest]. by exists "", rest.
    + intros ([|? ?] & post & Hpost); [by exists post | discriminate].
  - cbn [str_in]. rewrite orb_true_iff, IH, startswith_spec. split.
    + intros [[rest Hrest] | (pre & post & ->)].
      * by exists "", rest.
      * by exists (Str b pre), post.
    + intros ([|c pre] & post & Hpost); simpl in Hpost.
      * left. by exists post.
      * right. exists pre, post. by simplify_eq.
Qed.

Lemma str_in_false needle hay : str_in needle hay = false ↔ ¬ Contains needle hay.
Proof. rewrite <-str_in_spec. by destruct (str_in needle hay). Qed.

Lemma upper_app s t : upper (s +:+ t) = upper s +:+ upper t.
Proof. induction s; simpl; [done|]. by rewrite IHs, str_app_assoc. Qed.

Lemma Contains_extend needle hay pre post :
  Contains needle hay → Contains needle (pre +:+ hay +:+ post).
Proof.
  intros (p & q & ->). exists (pre +:+ p), (q +:+ post).
  by rewrite !str_app_assoc.
Qed.

Lemma str_app_length s t : length (s +:+ t) = (length s + length t)%nat.
Proof. induction s; simpl; congruence. Qed.

Lemma str_app_inj_length s1 s2 t1 t2 :
  s1 +:+ t1 = s2 +:+ t2 → length s1 = length s2 → s1 = s2 ∧ t1 = t2.
Proof.
  revert s2. induction s1 as [|a s1 IH]; intros [|b s2]; simpl; try done.
  intros Heq Hlen. simplify_eq. destruct (IH s2) as [-> ->]; [done | lia | done].
Qed.

Lemma slice_to_length n s : (n ≤ length s)%nat → length (slice_to n s) = n.
Proof.
  revert s. induction n as [|n IH]; intros [|c s]; simpl; intros Hle;
    try done; try lia.
  f_equal. apply IH. lia.
Qed.

Lemma slice_to_prefix n s : ∃ rest, s = slice_to n s +:+ rest.
Proof.
  revert s. induction n as [|n IH]; intros [|c s]; simpl.
  - by exists "".
  - by exists (Str c s).
  - by exists "".
  - destruct (IH s) as [rest Hrest]. exists rest. by f_equal.
Qed.

Lemma slice_to_first n s :
  (n ≤ length s)%nat → FirstChars n s (slice_to n s).
Proof.
  intros Hle. split; [by apply slice_to_length | apply slice_to_prefix].
Qed.

Lemma slice_to_app p r : slice_to (length p) (p +:+ r) = p.
Proof.
  induction p as [|c p IH]; simpl.
  - by destruct r.
  - by rewrite IH.
Qed.

Lemma FirstChars_unique n s p q : FirstChars n s p → FirstChars n s q → p = q.
Proof.
  intros [Hp [rp ->]] [Hq [rq Heq]]. subst n.
  revert q Hq Heq. induction p as [|c p IH]; intros [|d q]; simpl; try done.
  intros Hlen Heq. simplify_eq. f_equal. by eapply IH.
Qed.

End Strings.

(** ** Upper case *)

Section Case.
Import PyStr.

Ltac case_bounds :=
  repeat match goal with
    | |- context [(?a <=? ?b)%N] => destruct (N.leb_spec a b)
    | |- context [(?a <? ?b)%N] => destruct (N.ltb_spec a b)
    | H : context [(?a <=? ?b)%N] |- _ => destruct (N.leb_spec a b)
    | H : context [(?a <? ?b)%N] |- _ => destruct (N.ltb_spec a b)
    end;
  cbn [andb orb negb] in *.

Lemma lower_upper_char c : lower_char (upper_ascii_char c) = lower_char c.
Proof. unfold lower_char, upper_ascii_char. case_bounds; lia. Qed.

Lemma upper_lower_char c : upper_ascii_char (lower_char c) = upper_ascii_char c.
Proof. unfold lower_char, upper_ascii_char. case_bounds; lia. Qed.

Lemma upper_ascii_eq_lower_eq s t : upper_ascii s = upper_ascii t ↔ lower s = lower t.
Proof.
  revert t. induction s as [|a s IH]; intros [|b t]; simpl; try done.
  split; intros Heq; simplify_eq.
  - f_equal; [|by apply IH].
    rewrite <-(lower_upper_char a), <-(lower_upper_char b). congruence.
  - f_equal; [|by apply IH].
    rewrite <-(upper_lower_char a), <-(upper_lower_char b). congruence.
Qed.

Lemma upper_ascii_app s t : upper_ascii (s +:+ t) = upper_ascii s +:+ upper_ascii t.
Proof. induction s; simpl; congruence. Qed.

Lemma upper_ascii_length s : length (upper_ascii s) = length s.
Proof. induction s; simpl; congruence. Qed.

(** A split of the capitals of [s] comes from a split of [s]. *)
Lemma upper_ascii_app_inv s a b :
  upper_ascii s = a +:+ b →
  ∃ s1 s2, s = s1 +:+ s2 ∧ upper_ascii s1 = a ∧ upper_ascii s2 = b.
Proof.
  revert s. induction a as [|c a IH]; intros s Heq; simpl in Heq.
  - by exists "", s.
  - destruct s as [|d s]; simpl in Heq; [discriminate|].
    injection Heq as Hc Hrest.
    destruct (IH _ Hrest) as (s1 & s2 & -> & <- & <-).
    exists (Str d s1), s2. simpl. by rewrite Hc.
Qed.

(** [word in s.upper()], for [s] in ASCII and a word written in capitals,
    is the search for [word] in [s] with the case of letters ignored. *)
Lemma str_in_upper_ascii word s :
  upper_ascii word = word →
  Contains word (upper_ascii s) ↔ ContainsNoCase word s.
Proof.
  intros Hword. unfold Contains, ContainsNoCase, eq_nocase.
  split.
  - intros (pre & post & Heq).
    apply upper_ascii_app_inv in Heq as (s1 & s23 & -> & _ & Heq).
    apply upper_ascii_app_inv in Heq as (s2 & s3 & -> & Hmid & _).
    exists s1, s2, s3. split; [done|].
    apply upper_ascii_eq_lower_eq. congruence.
  - intros (pre & mid & post & -> & Hmid).
    apply upper_ascii_eq_lower_eq in Hmid. rewrite Hword in Hmid.
    exists (upper_ascii pre), (upper_ascii post). by rewrite !upper_ascii_app, Hmid.
Qed.

(** On a text in ASCII [str.upper] moves the letters a-z and nothing else. *)
Lemma upper_of_ascii s : is_ascii s = true → upper s = upper_ascii s.
Proof.
  induction s as [|c s IH]; [done|]. cbn [is_ascii upper upper_ascii].
  intros [Hc Hs]%andb_prop. unfold upper_char. rewrite Hc. cbn. by rewrite IH.
Qed.

(** Characters equal up to the case of an ASCII letter have the same upper case. *)
Lemma upper_char_nocase a b : lower_char a = lower_char b → upper_char a = upper_char b.
Proof.
  intros Heq. destruct (decide (a = b)) as [->|Hne]; [done|].
  unfold lower_char in Heq. unfold upper_char, upper_ascii_char.
  case_bounds; try lia; f_equal; lia.
Qed.

Lemma upper_nocase s t : eq_nocase s t → upper s = upper t.
Proof.
  unfold eq_nocase. revert t. induction s as [|a s IH]; intros [|b t]; simpl; try done.
  intros Heq. simplify_eq. by rewrite (upper_char_nocase a b), (IH t).
Qed.

Lemma upper_table_moves_ok : upper_table_moves = true.
Proof. vm_compute. reflexivity. Qed.

Lemma lookup_table_forallb (P : N * list N → bool) table c e :
  forallb P table = true → lookup_table c table = Some e → P (c, e) = true.
Proof.
  induction table as [|[k e'] table IH]; simpl; [done|].
  intros [Hk Hrest]%andb_prop. destruct (N.eqb_spec c k) as [->|_].
  - by intros [= <-].
  - by apply IH.
Qed.

(** The upper case of a character starts with that character only when it
    is the character itself. *)
Lemma upper_char_head c d ds :
  upper_char c = Str d ds → d = c → upper_char c = Str c "" ∧ upper_ascii_char c = c.
Proof.
  unfold upper_char. destruct (N.ltb_spec c 128) as [Hlow|Hhigh].
  - intros [= <- <-] Hc. by rewrite Hc.
  - assert (upper_ascii_char c = c) as Hcap.
    { unfold upper_ascii_char. case_bounds; lia. }
    destruct (lookup_table c upper_table) as [e|] eqn:Hlook; [|done].
    apply (lookup_table_forallb _ _ _ _ upper_table_moves_ok) in Hlook.
    destruct e as [|d' e]; [done|]. cbn [of_list]. intros [= <- <-] ->.
    by rewrite N.eqb_refl in Hlook.
Qed.

Lemma upper_char_nonempty c : upper_char c ≠ "".
Proof.
  unfold upper_char. destruct (c <? 128)%N; [done|].
  destruct (lookup_table c upper_table) as [e|] eqn:Hlook; [|done].
  apply (lookup_table_forallb _ _ _ _ upper_table_moves_ok) in Hlook.
  by destruct e.
Qed.

(** A text that [str.upper] leaves as it is holds no letter a-z. *)
Lemma upper_fixed s : upper s = s → upper_ascii s = s.
Proof.
  induction s as [|c s IH]; [done|]. cbn [upper upper_ascii].
  destruct (upper_char c) as [|d ds] eqn:Hup; [by apply upper_char_nonempty in Hup|].
  cbn [str_app]. intros [= Hd Hrest].
  destruct (upper_char_head c d ds Hup Hd) as [Hup' Hcap].
  rewrite Hup in Hup'. injection Hup' as _ ->. cbn [str_app] in Hrest.
  by rewrite Hcap, IH.
Qed.

End Case.

(** ** The [/env] route *)

Section ShowEnv.
Import PyStr Api.

Lemma show_env_step_insert safe_env key value :
  show_env_step safe_env (key, value) = <[key := shown key value]> safe_env.
Proof. unfold show_env_step, shown. by destruct (is_sensitive key). Qed.

(** The loop over a list of items with distinct keys: an entry of the list
    is shown, any other key keeps what the accumulator held. *)
Lemma show_env_loop_lookup (items : list (str * str)) safe_env key :
  NoDup items.*1 →
  foldl show_env_step safe_env items !! key =
    match (list_to_map items : gmap str str) !! key with
    | Some value => Some (shown key value)
    | None => safe_env !! key
    end.
Proof.
  revert safe_env. induction items as [|[k v] items IH]; intros safe_env Hnd.
  - done.
  - apply NoDup_cons in Hnd as [Hk Hnd]. cbn [foldl].
    rewrite IH, show_env_step_insert by done.
    cbn [list_to_map foldr uncurry]. fold (list_to_map (M:=gmap str str) items).
    destruct (decide (k = key)) as [->|Hne].
    + rewrite lookup_insert_eq, (not_elem_of_list_to_map_1 _ _ Hk).
      by rewrite lookup_insert_eq.
    + by rewrite !(lookup_insert_ne _ k key) by done.
Qed.

Lemma show_env_lookup (env : gmap str str) key :
  foldl show_env_step ∅ (map_to_list env) !! key = shown key <$> env !! key.
Proof.
  rewrite show_env_loop_lookup by apply NoDup_fst_map_to_list.
  rewrite list_to_map_to_list. by destruct (env !! key).
Qed.

Lemma secrets_capitals : Forall (λ word, upper_ascii word = word) secrets.
Proof. by repeat constructor. Qed.

(** The test of the loop decides the sensitivity predicate. *)
Lemma is_sensitive_spec key : is_sensitive key = true ↔ Spec.Sensitive key.
Proof.
  unfold is_sensitive, any, Spec.Sensitive. rewrite existsb_exists.
  split; intros (word & Hin & Hword); exists word.
  - apply list_elem_of_In in Hin. split; [done|]. by apply str_in_spec.
  - split; [by apply list_elem_of_In|]. by apply str_in_spec.
Qed.

(** For a key in ASCII the predicate needs no reference to [str.upper]. *)
Lemma sensitive_ascii key :
  is_ascii key = true → (Spec.Sensitive key ↔ Spec.SensitiveAscii key).
Proof.
  intros Hascii. unfold Spec.Sensitive, Spec.SensitiveAscii.
  rewrite (upper_of_ascii key Hascii).
  split; intros (word & Hin & Hword); exists word; (split; [done|]).
  - apply str_in_upper_ascii; [|done].
    by apply (proj1 (Forall_forall _ _) secrets_capitals).
  - apply str_in_upper_ascii in Hword; [done|].
    by apply (proj1 (Forall_forall _ _) secrets_capitals).
Qed.

Lemma shown_view key raw : Spec.EnvView key raw (shown key raw).
Proof.
  unfold shown. destruct (is_sensitive key) eqn:Hs.
  - apply is_sensitive_spec in Hs. unfold mask, len.
    destruct (Z.gtb_spec (Z.of_nat (length raw)) 4) as [Hlong|Hshort].
    + apply Spec.view_masked_long; [done | lia |].
      apply slice_to_first. lia.
    + apply Spec.view_masked_short; [done | lia].
  - apply Spec.view_plain. rewrite <-is_sensitive_spec. congruence.
Qed.

(** The view of an entry is determined by its key and raw value. *)
Lemma EnvView_functional key raw out out' :
  Spec.EnvView key raw out → Spec.EnvView key raw out' → out = out'.
Proof.
  intros [p Hs Hlen Hp | Hs Hlen | Hns] [p' Hs' Hlen' Hp' | Hs' Hlen' | Hns'];
    try done; try lia.
  by rewrite (FirstChars_unique _ _ _ _ Hp Hp').
Qed.

End ShowEnv.

(** C1.  For every configuration snapshot, [/env] answers 200 with a
    mapping that has exactly the keys of the snapshot; the value under a key
    is fixed by the sensitivity predicate and the masking rule alone: a key
    that contains KEY, SECRET, PASSWORD or TOKEN (case ignored) shows the
    first 4 characters of the raw value followed by the mask marker when the
    raw value is longer than 4 characters and the mask marker alone
    otherwise; any other key shows its raw value unchanged.  Characters are
    code points; the case is ignored by putting the key in upper case, which
    for a key in ASCII is to say that some run of its characters is the word
    up to the case of its letters. *)
Theorem show_env_masks (w : World) :
  ∃ obj, run (Api.app "/env") w = (Return (Api.jsonify obj), w) ∧
    ∀ key,
      match environ w !! key with
      | Some raw =>
          ∃ out, obj !! key = Some (Api.JStr out) ∧
                 Spec.EnvView key raw out ∧
                 (∀ out', Spec.EnvView key raw out' → out' = out) ∧
                 (PyStr.is_ascii key = true →
                  (Spec.Sensitive key ↔ Spec.SensitiveAscii key))
      | None => obj !! key = None
      end.
Proof.
  eexists. split; [reflexivity|]. intros key.
  rewrite lookup_fmap, show_env_lookup.
  destruct (environ w !! key) as [raw|]; [|done].
  exists (shown key raw). split; [done|]. split; [apply shown_view|].
  split; [|apply sensitive_ascii].
  intros out' Hout'. eapply EnvView_functional; [done | apply shown_view].
Qed.

Example show_env_scenario :
  run Api.show_env (fresh {[ "SECRET_KEY" := "abcdefgh" ]}) =
    (Return (Api.jsonify {[ "SECRET_KEY" := Api.JStr "abcd****" ]}),
     fresh {[ "SECRET_KEY" := "abcdefgh" ]}).
Proof. vm_compute. reflexivity. Qed.

Example show_env_mixed :
  (Api.JStr <$> foldl Api.show_env_step ∅
     (map_to_list ({[ "api_token" := "xy"; "HOME" := "/root"; "Db_Password" := "hunter22" ]}
                   : gmap str str))) =
  {[ "api_token" := Api.JStr "****"; "HOME" := Api.JStr "/root";
     "Db_Password" := Api.JStr "hunt****" ]}.
Proof. vm_compute. reflexivity. Qed.

Example show_env_unicode :
  (Api.JStr <$> foldl Api.show_env_step ∅
     (map_to_list ({[ "ſecret" := "ééabcd"; "paßword" := "éééé"; Str 8490 "EY" := "kelvin" ]}
                   : gmap str str))) =
  {[ "ſecret" := Api.JStr "ééab****"; "paßword" := Api.JStr "****";
     Str 8490 "EY" := Api.JStr "kelvin" ]}.
Proof. vm_compute. reflexivity. Qed.

(** ** The dependency checks *)

Section Checks.
Import PyStr Api.

Lemma dict_singleton {V} (k : str) (v : V) : dict [(k, v)] = {[ k := v ]}.
Proof. unfold dict. cbn [foldl fst snd]. apply insert_empty. Qed.

(** The fallback string of the three checks holds none of the schemes. *)
Lemma fallback_no_scheme scheme :
  scheme ∈ ["postgres"; "redis"; "amqp"] → ¬ Contains scheme "not configured".
Proof.
  intros Hin. apply str_in_false.
  repeat (apply elem_of_cons in Hin as [->|Hin]; [by vm_compute|]).
  by apply elem_of_nil in Hin.
Qed.

(** The shape shared by [db_check], [cache_check] and [queue_check]: read
    [key] with the fallback, look for [scheme] in what was read. *)
Lemma check_status (scheme key : str) (w : World) :
  scheme ∈ ["postgres"; "redis"; "amqp"] →
  let read := default "not configured" (environ w !! key) in
  (str_in scheme read = true ↔
     ∃ raw, environ w !! key = Some raw ∧ Contains scheme raw).
Proof.
  intros Hscheme read. subst read. rewrite str_in_spec.
  destruct (environ w !! key) as [raw|]; simpl.
  - split; [intros Hc; by exists raw | intros (raw' & Heq & Hc); by simplify_eq].
  - split; [intros Hc; by apply fallback_no_scheme in Hc | intros (raw' & Heq & _); done].
Qed.

Lemma configured_inv ok : configured ok = JStr Spec.configured ↔ ok = true.
Proof. by destruct ok. Qed.

End Checks.

(** C2.  For every configuration snapshot, [/db-check] answers
    [{"database": s}] where [s] is "configured" if and only if DATABASE_URL
    is set and its raw value contains "postgres", and "not configured"
    otherwise; it is "not configured" when DATABASE_URL is absent. *)
Theorem db_check_postgres (w : World) :
  ∃ s, run (Api.app "/db-check") w = (Return (Api.jsonify {[ "database" := Api.JStr s ]}), w) ∧
    (s = Spec.configured ∨ s = Spec.not_configured) ∧
    (s = Spec.configured ↔
       ∃ raw, environ w !! "DATABASE_URL" = Some raw ∧ PyStr.Contains "postgres" raw) ∧
    (environ w !! "DATABASE_URL" = None → s = Spec.not_configured).
Proof.
  pose proof (check_status "postgres" "DATABASE_URL" w ltac:(repeat constructor)) as Hcheck.
  cbn zeta in Hcheck.
  exists (if PyStr.str_in "postgres" (default "not configured" (environ w !! "DATABASE_URL"))
          then Spec.configured else Spec.not_configured).
  refine (conj _ (conj _ (conj _ _))).
  - change (Api.app "/db-check") with Api.db_check.
    unfold run, Api.db_check, environ_get_default, mbind, Py_bind, mret, Py_ret.
    by rewrite dict_singleton.
  - destruct (PyStr.str_in _ _); auto.
  - rewrite <-Hcheck. by destruct (PyStr.str_in _ _).
  - by intros ->.
Qed.

Example db_check_scenario :
  run Api.db_check (fresh {[ "DATABASE_URL" := "postgres://x"; "REDIS_URL" := "" ]}) =
    (Return (Api.jsonify {[ "database" := Api.JStr "configured" ]}),
     fresh {[ "DATABASE_URL" := "postgres://x"; "REDIS_URL" := "" ]}).
Proof. vm_compute. reflexivity. Qed.

(** C10.  The scheme looked for is fixed per route: [/cache-check] answers
    [{"redis": s}] with [s] "configured" if and only if REDIS_URL is set and
    its raw value contains "redis"; [/queue-check] answers [{"rabbitmq": s}]
    with [s] "configured" if and only if RABBITMQ_URL is set and its raw
    value contains "amqp"; either answers "not configured" otherwise.  When
    the key is absent the fallback string "not configured" is what is
    searched, and the answer is "not configured". *)
Theorem cache_and_queue_checks (w : World) :
  (∃ s, run (Api.app "/cache-check") w = (Return (Api.jsonify {[ "redis" := Api.JStr s ]}), w) ∧
     (s = Spec.configured ∨ s = Spec.not_configured) ∧
     (s = Spec.configured ↔
        ∃ raw, environ w !! "REDIS_URL" = Some raw ∧ PyStr.Contains "redis" raw) ∧
     (environ w !! "REDIS_URL" = None →
        s = (if PyStr.str_in "redis" "not configured"
             then Spec.configured else Spec.not_configured) ∧
        s = Spec.not_configured)) ∧
  (∃ s, run (Api.app "/queue-check") w = (Return (Api.jsonify {[ "rabbitmq" := Api.JStr s ]}), w) ∧
     (s = Spec.configured ∨ s = Spec.not_configured) ∧
     (s = Spec.configured ↔
        ∃ raw, environ w !! "RABBITMQ_URL" = Some raw ∧ PyStr.Contains "amqp" raw) ∧
     (environ w !! "RABBITMQ_URL" = None →
        s = (if PyStr.str_in "amqp" "not configured"
             then Spec.configured else Spec.not_configured) ∧
        s = Spec.not_configured)).
Proof.
  pose proof (check_status "redis" "REDIS_URL" w ltac:(repeat constructor)) as Hredis.
  pose proof (check_status "amqp" "RABBITMQ_URL" w ltac:(repeat constructor)) as Hamqp.
  cbn zeta in Hredis, Hamqp.
  split.
  - clear Hamqp.
    exists (if PyStr.str_in "redis" (default "not configured" (environ w !! "REDIS_URL"))
            then Spec.configured else Spec.not_configured).
    refine (conj _ (conj _ (conj _ _))).
    + change (Api.app "/cache-check") with Api.cache_check.
      unfold run, Api.cache_check, environ_get_default, mbind, Py_bind, mret, Py_ret.
      by rewrite dict_singleton.
    + destruct (PyStr.str_in _ _); auto.
    + rewrite <-Hredis. by destruct (PyStr.str_in _ _).
    + intros ->. by split.
  - clear Hredis.
    exists (if PyStr.str_in "amqp" (default "not configured" (environ w !! "RABBITMQ_URL"))
            then Spec.configured else Spec.not_configured).
    refine (conj _ (conj _ (conj _ _))).
    + change (Api.app "/queue-check") with Api.queue_check.
      unfold run, Api.queue_check, environ_get_default, mbind, Py_bind, mret, Py_ret.
      by rewrite dict_singleton.
    + destruct (PyStr.str_in _ _); auto.
    + rewrite <-Hamqp. by destruct (PyStr.str_in _ _).
    + intros ->. by split.
Qed.

(** ** The [/services] route *)

Section Services.
Import PyStr Api.

(** [bool(os.environ.get(key))] is true exactly for a key that is present
    with a non-empty value. *)
Lemma py_bool_present (env : gmap str str) key :
  py_bool (env !! key) = true ↔ Spec.Present env key.
Proof.
  unfold Spec.Present. destruct (env !! key) as [[|c v]|]; simpl.
  - split; [done | intros (v & Hv & Hne); by simplify_eq].
  - split; [intros _; by eexists | done].
  - split; [done | intros (v & Hv & _); done].
Qed.

Lemma services_run w : run services w = (Return (jsonify (descriptor (environ w))), w).
Proof. reflexivity. Qed.

Lemma descriptor_lookup env name key :
  (name, key) ∈ Spec.dependencies →
  descriptor env !! name = Some (JBool (py_bool (env !! key))).
Proof.
  intros Hin. unfold descriptor, dict, Spec.dependencies in *.
  cbn [fmap list_fmap foldl fst snd].
  repeat (apply elem_of_cons in Hin as [[= -> ->]|Hin];
          [by simplify_map_eq|]).
  by apply elem_of_nil in Hin.
Qed.

Lemma descriptor_dom env name :
  is_Some (descriptor env !! name) ↔ ∃ key, (name, key) ∈ Spec.dependencies.
Proof.
  split.
  - unfold descriptor, dict, Spec.dependencies.
    cbn [fmap list_fmap foldl fst snd]. intros Hsome.
    repeat (rewrite lookup_insert in Hsome; case_decide;
            [subst name; eexists; by repeat constructor|]).
    rewrite lookup_empty in Hsome. by destruct Hsome.
  - intros [key Hin]. rewrite (descriptor_lookup _ _ _ Hin). by eexists.
Qed.

Lemma dep_database : ("database", "DATABASE_URL") ∈ Spec.dependencies.
Proof. by apply (list_elem_of_lookup_2 _ 0%nat). Qed.

Lemma dep_redis : ("redis", "REDIS_URL") ∈ Spec.dependencies.
Proof. by apply (list_elem_of_lookup_2 _ 1%nat). Qed.

Lemma dep_rabbitmq : ("rabbitmq", "RABBITMQ_URL") ∈ Spec.dependencies.
Proof. by apply (list_elem_of_lookup_2 _ 2%nat). Qed.

Lemma scheme_postgres : "postgres" ∈ ["postgres"; "redis"; "amqp"].
Proof. by apply (list_elem_of_lookup_2 _ 0%nat). Qed.

Lemma scheme_redis : "redis" ∈ ["postgres"; "redis"; "amqp"].
Proof. by apply (list_elem_of_lookup_2 _ 1%nat). Qed.

Lemma scheme_amqp : "amqp" ∈ ["postgres"; "redis"; "amqp"].
Proof. by apply (list_elem_of_lookup_2 _ 2%nat). Qed.

End Services.

(** C3.  For every configuration snapshot, [/services] answers 200 with a
    mapping that holds, for each dependency, the boolean [true] if and only
    if the configuration key of that dependency is present in the snapshot
    with a non-empty value, whatever that value is; a key set to the empty
    string is reported [false].  The mapping has no other entries. *)
Theorem services_presence (w : World) :
  ∃ obj, run (Api.app "/services") w = (Return (Api.jsonify obj), w) ∧
    (∀ name key, (name, key) ∈ Spec.dependencies →
       ∃ b, obj !! name = Some (Api.JBool b) ∧
            (b = true ↔ Spec.Present (environ w) key) ∧
            (environ w !! key = Some "" → b = false)) ∧
    (∀ name, is_Some (obj !! name) → ∃ key, (name, key) ∈ Spec.dependencies).
Proof.
  exists (descriptor (environ w)). split; [apply services_run|]. split.
  - intros name key Hin. exists (Api.py_bool (environ w !! key)).
    split; [by apply descriptor_lookup|]. split; [apply py_bool_present|].
    by intros ->.
  - intros name. apply descriptor_dom.
Qed.

Example services_scenario :
  ∃ obj,
    run Api.services (fresh {[ "DATABASE_URL" := "postgres://x"; "REDIS_URL" := "" ]}) =
      (Return (Api.jsonify obj),
       fresh {[ "DATABASE_URL" := "postgres://x"; "REDIS_URL" := "" ]}) ∧
    obj !! "database" = Some (Api.JBool true) ∧
    obj !! "redis" = Some (Api.JBool false).
Proof. eexists. split; [reflexivity|]. split; vm_compute; reflexivity. Qed.


(** ** [int] on literals *)

Example of_str_examples :
  PyInt.of_str 4300 "8080" = inl 8080 ∧ PyInt.of_str 4300 " +9_000 " = inl 9000 ∧
  PyInt.of_str 4300 "-1" = inl (-1) ∧ PyInt.of_str 4300 "٩٠٠٠" = inl 9000 ∧
  PyInt.of_str 4300 (Str 160 "8080") = inl 8080 ∧
  PyInt.of_str 4300 (Str 31 "9000") = inr (InvalidLiteral (Str 31 "9000")) ∧
  PyInt.of_str 4300 "" = inr (InvalidLiteral "") ∧
  PyInt.of_str 4300 "80_" = inr (InvalidLiteral "80_") ∧
  PyInt.of_str 4300 "8 0" = inr (InvalidLiteral "8 0") ∧
  PyInt.of_str 4300 "http" = inr (InvalidLiteral "http") ∧
  PyInt.of_str 4300 (PyStr.of_list (replicate 4301 48%N) +:+ "80") =
    inr (ExceedsDigits 4300 4303) ∧
  PyInt.of_str 0 (PyStr.of_list (replicate 4301 48%N) +:+ "80") = inl 80 ∧
  PyInt.to_str 8080 = "8080" ∧ PyInt.to_str 0 = "0" ∧ PyInt.to_str (-7) = "-7".
Proof. repeat split; vm_compute; reflexivity. Qed.
(** ** Running computations *)

Section Frames.

Lemma logged_nil w : logged [] w = w.
Proof. destruct w. unfold logged. simpl. by rewrite app_nil_r. Qed.

Lemma logged_logged evs evs' w : logged evs' (logged evs w) = logged (evs ++ evs') w.
Proof. unfold logged. simpl. by rewrite app_assoc. Qed.

Lemma emit_logged e w : emit e w = (Return tt, logged [e] w).
Proof. reflexivity. Qed.

Lemma run_bind {A B} (m : Py A) (k : A → Py B) w :
  run (m ≫= k) w =
    match run m w with
    | (Return a, w') => run (k a) w'
    | (Raise e, w') => (Raise e, w')
    end.
Proof. reflexivity. Qed.

Lemma pure_read_ret {A} (a : A) : pure_read (mret a).
Proof. by intros w. Qed.

Lemma pure_read_bind {A B} (m : Py A) (k : A → Py B) :
  pure_read m → (∀ a, pure_read (k a)) → pure_read (m ≫= k).
Proof.
  intros Hm Hk w. rewrite run_bind. specialize (Hm w).
  destruct (run m w) as [[a|e] w']; simpl in *; subst w'; [apply Hk | done].
Qed.

Lemma pure_read_environ_get key : pure_read (environ_get key).
Proof. by intros w. Qed.

Lemma pure_read_environ_get_default key dflt : pure_read (environ_get_default key dflt).
Proof. by intros w. Qed.

Lemma pure_read_environ_items : pure_read environ_items.
Proof. by intros w. Qed.

Lemma pure_read_get_time : pure_read get_time.
Proof. by intros w. Qed.

Lemma pure_read_get_ctime : pure_read get_ctime.
Proof. by intros w. Qed.

Lemma pure_read_raise {A} e : pure_read (@raise A e).
Proof. by intros w. Qed.

Lemma only_logs_pure {A} (m : Py A) : pure_read m → only_logs m.
Proof. intros Hm w. exists []. by rewrite logged_nil. Qed.

Lemma only_logs_bind {A B} (m : Py A) (k : A → Py B) :
  only_logs m → (∀ a, only_logs (k a)) → only_logs (m ≫= k).
Proof.
  intros Hm Hk w. rewrite run_bind. destruct (Hm w) as [evs Hevs].
  destruct (run m w) as [[a|e] w']; simpl in *; subst w'.
  - destruct (Hk a (logged evs w)) as [evs' ->]. eexists. apply logged_logged.
  - by eexists.
Qed.

Lemma only_logs_emit e : only_logs (emit e).
Proof. intros w. by exists [e]. Qed.

Lemma only_logs_print_stdout text : only_logs (print_stdout text).
Proof.
  intros w. unfold run, print_stdout. destruct (stdout_closed w).
  - exists []. by rewrite logged_nil.
  - by eexists.
Qed.

Lemma only_logs_flush_stdout : only_logs flush_stdout.
Proof.
  intros w. unfold run, flush_stdout. destruct (stdout_closed w).
  - exists []. by rewrite logged_nil.
  - by eexists.
Qed.

Lemma only_logs_print_stderr text : only_logs (print_stderr text).
Proof.
  intros w. unfold run, print_stderr. destruct (stderr_closed w).
  - exists []. by rewrite logged_nil.
  - by eexists.
Qed.

Lemma only_logs_if {A} {P : Prop} (c : Decision P) (m1 m2 : Py A) :
  only_logs m1 → only_logs m2 → only_logs (if c then m1 else m2).
Proof. by destruct c. Qed.

Lemma keeps_config_logs {A} (m : Py A) : only_logs m → keeps_config m.
Proof. intros Hm w. by destruct (Hm w) as [evs ->]. Qed.

Lemma keeps_config_bind {A B} (m : Py A) (k : A → Py B) :
  keeps_config m → (∀ a, keeps_config (k a)) → keeps_config (m ≫= k).
Proof.
  intros Hm Hk w. rewrite run_bind. destruct (Hm w) as (He & Ho & Hr).
  destruct (run m w) as [[a|e] w']; simpl in *; [|done].
  destruct (Hk a w') as (He' & Ho' & Hr'). split_and!; congruence.
Qed.

Lemma keeps_config_clock_reads t : keeps_config (clock_reads t).
Proof. by intros w. Qed.

End Frames.

Create HintDb frame discriminated.
#[export] Hint Resolve pure_read_ret pure_read_bind pure_read_environ_get
  pure_read_environ_get_default pure_read_environ_items pure_read_get_time
  pure_read_get_ctime pure_read_raise : frame.
#[export] Hint Resolve only_logs_bind only_logs_emit only_logs_print_stdout
  only_logs_flush_stdout only_logs_print_stderr only_logs_if : frame.
#[export] Hint Resolve only_logs_pure | 10 : frame.
#[export] Hint Resolve keeps_config_bind keeps_config_clock_reads : frame.
#[export] Hint Resolve keeps_config_logs | 10 : frame.


(** ** The feature-test handler *)

Section Feature.
Import FeatureTest.

(** Unfold a computation on a world whose stream flags are known. *)
Ltac run_py :=
  unfold run, do_GET, send_response, mbind, Py_bind, mret, Py_ret, get_ctime,
    print_stdout, flush_stdout, print_stderr, sys_exit, raise, environ_get_default,
    emit, logged;
  repeat first
    [ progress cbn [stdout_closed stderr_closed environ ctime time_time
                    int_max_str_digits bind_granted free_port trace]
    | match goal with
      | H : stdout_closed _ = _ |- _ => rewrite H
      | H : stderr_closed _ = _ |- _ => rewrite H
      end
    | case_decide; try done ];
  rewrite <-?app_assoc; try reflexivity.

(** The log line comes first: with [sys.stdout] closed nothing else happens. *)
Lemma do_GET_closed path w :
  stdout_closed w = true → run (do_GET path) w = (Raise closed_file, w).
Proof. intros Hout. by run_py. Qed.

Lemma do_GET_health w :
  stdout_closed w = false →
  run (do_GET "/health") w =
    if stderr_closed w
    then (Raise closed_file,
          logged [Stdout (request_line (ctime w) "/health"); StdoutFlush] w)
    else (Return tt,
          logged [Stdout (request_line (ctime w) "/health"); StdoutFlush;
                  AccessLog 200; SendResponse 200; EndHeaders; WfileWrite "OK"] w).
Proof. intros Hout. destruct (stderr_closed w) eqn:Herr; by run_py. Qed.

Lemma do_GET_crash w :
  stdout_closed w = false →
  run (do_GET "/crash") w =
    if stderr_closed w
    then (Raise closed_file,
          logged [Stdout (request_line (ctime w) "/crash"); StdoutFlush] w)
    else (Raise (SystemExit 1),
          logged [Stdout (request_line (ctime w) "/crash"); StdoutFlush;
                  Stderr "💥 CRASHING NOW..."] w).
Proof. intros Hout. destruct (stderr_closed w) eqn:Herr; by run_py. Qed.

Lemma encodable_app s t :
  PyStr.encodable (s +:+ t) = PyStr.encodable s && PyStr.encodable t.
Proof.
  unfold PyStr.encodable. induction s as [|c s IH]; [done|].
  cbn [str_app Utf8.all_scalar]. by rewrite IH, andb_assoc.
Qed.

Lemma fallback_encodable env :
  PyStr.encodable (unlines (fallback_lines env)) =
    PyStr.encodable (default "unknown" (env !! "HOSTNAME")) &&
    PyStr.encodable (default "NOT_SET" (env !! "SECRET_KEY")).
Proof.
  unfold fallback_lines. cbn [unlines]. rewrite !encodable_app.
  change (PyStr.encodable "🚀 Hello from Arcane!") with true.
  change (PyStr.encodable "Hostname: ") with true.
  change (PyStr.encodable "Secret: ") with true.
  change (PyStr.encodable nl) with true.
  change (PyStr.encodable "") with true.
  cbn [andb]. by rewrite !andb_true_r.
Qed.

Lemma fallback_body env :
  "🚀 Hello from Arcane!" +:+ nl +:+
  "Hostname: " +:+ default "unknown" (env !! "HOSTNAME") +:+ nl +:+
  "Secret: " +:+ default "NOT_SET" (env !! "SECRET_KEY") +:+ nl =
  unlines (fallback_lines env).
Proof.
  unfold fallback_lines. cbn [unlines].
  by rewrite !str_app_assoc, (str_app_nil_r nl).
Qed.

Lemma do_GET_other path w :
  stdout_closed w = false → path ≠ "/health" → path ≠ "/crash" →
  run (do_GET path) w =
    if stderr_closed w
    then (Raise closed_file,
          logged [Stdout (request_line (ctime w) path); StdoutFlush] w)
    else if PyStr.encodable (unlines (fallback_lines (environ w)))
    then (Return tt,
          logged [Stdout (request_line (ctime w) path); StdoutFlush;
                  AccessLog 200; SendResponse 200; EndHeaders;
                  WfileWrite (PyStr.utf8 (unlines (fallback_lines (environ w))))] w)
    else (Raise UnicodeEncodeError,
          logged [Stdout (request_line (ctime w) path); StdoutFlush;
                  AccessLog 200; SendResponse 200; EndHeaders] w).
Proof.
  intros Hout Hhealth Hcrash. destruct (stderr_closed w) eqn:Herr; [by run_py|].
  run_py. rewrite fallback_body. unfold write_encoded, PyStr.encode.
  destruct (PyStr.encodable (unlines (fallback_lines (environ w))));
    unfold emit, raise; cbn [trace]; by rewrite <-?app_assoc.
Qed.

Lemma only_logs_send_response code : only_logs (send_response code).
Proof.
  intros w. unfold run, send_response. destruct (stderr_closed w).
  - exists []. by rewrite logged_nil.
  - exists [AccessLog code; SendResponse code].
    unfold mbind, Py_bind, emit, logged. cbn. by rewrite <-app_assoc.
Qed.

Lemma only_logs_write_encoded body : only_logs (write_encoded body).
Proof.
  intros w. unfold run, write_encoded. destruct (PyStr.encode body).
  - by eexists.
  - exists []. by rewrite logged_nil.
Qed.

Lemma do_GET_only_logs path : only_logs (do_GET path).
Proof.
  unfold do_GET, sys_exit.
  eauto 20 using only_logs_send_response, only_logs_write_encoded with frame.
Qed.

End Feature.

(** ** The feature-test server *)

Section Server.
Import FeatureTest.

Lemma only_logs_handle_error e : only_logs (handle_error e).
Proof.
  intros w. unfold run, handle_error. destruct (stderr_closed w).
  - exists []. by rewrite logged_nil.
  - by eexists.
Qed.

Lemma request_keeps_config r : keeps_config (clock_reads (arrival r);; do_GET (req_path r)).
Proof. auto using do_GET_only_logs with frame. Qed.

Lemma serve_forever_keeps_config requests : keeps_config (serve_forever requests).
Proof.
  induction requests as [|r rest IH]; intros w; [done|].
  unfold run. cbn [serve_forever].
  destruct (request_keeps_config r w) as (He & Ho & Hr). unfold run in *.
  destruct ((clock_reads (arrival r);; do_GET (req_path r)) w)
    as [[[]|e] w1]; simpl in He, Ho, Hr.
  - destruct (IH w1) as (He' & Ho' & Hr'). unfold run in *. split_and!; congruence.
  - assert (keeps_config (handle_error e;; serve_forever rest)) as Hk
      by auto using only_logs_handle_error with frame.
    destruct (Hk w1) as (He' & Ho' & Hr'). unfold run in *.
    destruct e; simpl; split_and!; congruence.
Qed.








End Server.

(** ** The Flask application *)

Section App.
Import Api.

Lemma routes_pure_read : Forall (λ route, pure_read route.2) routes.
Proof.
  unfold routes, health, index, show_env, db_check, cache_check, queue_check, services.
  repeat constructor; cbn [snd]; eauto 30 with frame.
Qed.

Lemma dispatch_pure_read table path :
  Forall (λ route, pure_read route.2) table → pure_read (dispatch table path).
Proof.
  induction 1 as [|[rule view] table Hview _ IH]; cbn [dispatch].
  - apply pure_read_ret.
  - by case_decide.
Qed.

Lemma app_pure_read path : pure_read (app path).
Proof. apply dispatch_pure_read, routes_pure_read. Qed.

End App.

(** ** The routes of the feature-test service *)

(** C4.  A request for [/crash] ends the process with exit status 1, which
    is not zero: the handler logs the request, writes its message to
    [sys.stderr] and raises [SystemExit(1)], which the server loop lets
    through; no status line, header or body is written to the connection,
    and the requests that follow are never served. *)
Theorem crash_exits (w : World) (t : str) (rest : list FeatureTest.request) :
  stdout_closed w = false →
  stderr_closed w = false →
  ∃ code,
    exit_status (run (FeatureTest.serve_forever (FeatureTest.mkRequest t "/crash" :: rest)) w).1
      = Exited code ∧
    code ≠ 0 ∧
    trace (run (FeatureTest.serve_forever (FeatureTest.mkRequest t "/crash" :: rest)) w).2
      = trace w ++ [Stdout (request_line t "/crash"); StdoutFlush;
                    Stderr "💥 CRASHING NOW..."].
Proof.
  intros Hout Herr. exists 1.
  unfold run. cbn [FeatureTest.serve_forever FeatureTest.arrival FeatureTest.req_path].
  change ((clock_reads t;; FeatureTest.do_GET "/crash") w)
    with (run (FeatureTest.do_GET "/crash") (at_ctime t w)).
  rewrite do_GET_crash by done.
  cbn [at_ctime stderr_closed]. rewrite Herr. by cbn.
Qed.

(** The crash at a concrete run: a fresh process receives [/crash], then
    [/health]. *)
Lemma crash_exits_witness :
  ∃ code,
    exit_status (run (FeatureTest.serve_forever
                        [FeatureTest.mkRequest "Tue Nov  3 10:45:12 2026" "/crash";
                         FeatureTest.mkRequest "Tue Nov  3 10:45:13 2026" "/health"])
                   (fresh ∅)).1 = Exited code ∧
    code ≠ 0 ∧
    trace (run (FeatureTest.serve_forever
                  [FeatureTest.mkRequest "Tue Nov  3 10:45:12 2026" "/crash";
                   FeatureTest.mkRequest "Tue Nov  3 10:45:13 2026" "/health"])
             (fresh ∅)).2
      = trace (fresh ∅) ++
        [Stdout (request_line "Tue Nov  3 10:45:12 2026" "/crash"); StdoutFlush;
         Stderr "💥 CRASHING NOW..."].
Proof.
  apply (crash_exits (fresh ∅) "Tue Nov  3 10:45:12 2026"
           [FeatureTest.mkRequest "Tue Nov  3 10:45:13 2026" "/health"]);
    reflexivity.
Defined.

(** C7.  For every configuration snapshot, [/health] yields status 200 and
    the body "OK".  The Flask view returns them in every world.  The
    feature-test handler, in a process with both standard streams open
    (its own log line goes to [sys.stdout], the access log of
    [send_response] to [sys.stderr]), sends status 200, ends the headers
    and writes the body "OK", whatever the configuration holds. *)
Theorem health_ok (w : World) :
  run (Api.app "/health") w =
    (Return {| Api.status_code := 200; Api.body := Api.Text "OK" |}, w) ∧
  (stdout_closed w = false →
   stderr_closed w = false →
   run (FeatureTest.do_GET "/health") w =
     (Return tt,
      logged [Stdout (request_line (ctime w) "/health"); StdoutFlush;
              AccessLog 200; SendResponse 200; EndHeaders; WfileWrite "OK"] w)).
Proof.
  split; [reflexivity|]. intros Hout Herr.
  by rewrite do_GET_health, Herr.
Qed.

(** The health check of the feature-test handler in a fresh process. *)
Lemma health_ok_witness :
  run (FeatureTest.do_GET "/health") (fresh {[ "PORT" := "9000" ]}) =
    (Return tt,
     logged [Stdout (request_line (ctime (fresh {[ "PORT" := "9000" ]})) "/health");
             StdoutFlush; AccessLog 200; SendResponse 200; EndHeaders; WfileWrite "OK"]
       (fresh {[ "PORT" := "9000" ]})).
Proof.
  apply (proj2 (health_ok (fresh {[ "PORT" := "9000" ]}))); reflexivity.
Defined.

(** C8, as stated, fails: a HOSTNAME that holds a lone surrogate (the byte
    0xFF in the process environment reads as U+DCFF) cannot be encoded;
    the handler raises after the headers and no body is written. *)
Lemma fallback_page_counterexample :
  run (FeatureTest.do_GET "/hello") (fresh {[ "HOSTNAME" := Str 56575 "" ]}) =
    (Raise UnicodeEncodeError,
     logged [Stdout "[Tue Nov  3 10:44:00 2026] 📥 Request: /hello"; StdoutFlush;
             AccessLog 200; SendResponse 200; EndHeaders]
       (fresh {[ "HOSTNAME" := Str 56575 "" ]})) ∧
  bodies (trace (run (FeatureTest.do_GET "/hello")
                   (fresh {[ "HOSTNAME" := Str 56575 "" ]})).2) = [] ∧
  ¬ fallback_always_written.
Proof.
  assert (run (FeatureTest.do_GET "/hello") (fresh {[ "HOSTNAME" := Str 56575 "" ]}) =
    (Raise UnicodeEncodeError,
     logged [Stdout "[Tue Nov  3 10:44:00 2026] 📥 Request: /hello"; StdoutFlush;
             AccessLog 200; SendResponse 200; EndHeaders]
       (fresh {[ "HOSTNAME" := Str 56575 "" ]}))) as Hrun
    by (vm_compute; reflexivity).
  split; [exact Hrun|]. split; [by rewrite Hrun|].
  intros Hall.
  destruct (Hall "/hello" (fresh {[ "HOSTNAME" := Str 56575 "" ]})
              eq_refl eq_refl ltac:(discriminate) ltac:(discriminate))
    as (w' & Hret & _).
  rewrite Hrun in Hret. discriminate.
Qed.

(** C8, amended.  In the feature-test variant, in a process with both
    standard streams open, a request for any path other than [/health] and
    [/crash] is answered with status 200.  When the value of HOSTNAME
    ("unknown" when absent) and the value of SECRET_KEY ("NOT_SET" when
    absent) can be encoded as UTF-8, the body is the encoding of three
    lines: the greeting, the value of HOSTNAME and the value of SECRET_KEY,
    shown as it is.  When one of them cannot (it holds a lone surrogate),
    the handler raises [UnicodeEncodeError] after the headers and writes no
    body. *)
Theorem fallback_page (path : str) (w : World) :
  stdout_closed w = false →
  stderr_closed w = false →
  path ≠ "/health" →
  path ≠ "/crash" →
  run (FeatureTest.do_GET path) w =
    if PyStr.encodable (default "unknown" (environ w !! "HOSTNAME")) &&
       PyStr.encodable (default "NOT_SET" (environ w !! "SECRET_KEY"))
    then
      (Return tt,
       logged [Stdout (request_line (ctime w) path); StdoutFlush;
               AccessLog 200; SendResponse 200; EndHeaders;
               WfileWrite (PyStr.utf8 (unlines
                 ["🚀 Hello from Arcane!";
                  "Hostname: " +:+ default "unknown" (environ w !! "HOSTNAME");
                  "Secret: " +:+ default "NOT_SET" (environ w !! "SECRET_KEY")]))] w)
    else
      (Raise UnicodeEncodeError,
       logged [Stdout (request_line (ctime w) path); StdoutFlush;
               AccessLog 200; SendResponse 200; EndHeaders] w).
Proof.
  intros Hout Herr Hhealth Hcrash.
  rewrite do_GET_other, Herr, fallback_encodable by done. reflexivity.
Qed.

(** The fallback page for [/hello] with SECRET_KEY set and HOSTNAME absent. *)
Lemma fallback_page_witness :
  run (FeatureTest.do_GET "/hello") (fresh {[ "SECRET_KEY" := "abcdefgh" ]}) =
    if PyStr.encodable
         (default "unknown" (environ (fresh {[ "SECRET_KEY" := "abcdefgh" ]}) !! "HOSTNAME")) &&
       PyStr.encodable
         (default "NOT_SET" (environ (fresh {[ "SECRET_KEY" := "abcdefgh" ]}) !! "SECRET_KEY"))
    then
      (Return tt,
       logged [Stdout (request_line (ctime (fresh {[ "SECRET_KEY" := "abcdefgh" ]})) "/hello");
               StdoutFlush; AccessLog 200; SendResponse 200; EndHeaders;
               WfileWrite (PyStr.utf8 (unlines
                 ["🚀 Hello from Arcane!";
                  "Hostname: " +:+
                    default "unknown"
                      (environ (fresh {[ "SECRET_KEY" := "abcdefgh" ]}) !! "HOSTNAME");
                  "Secret: " +:+
                    default "NOT_SET"
                      (environ (fresh {[ "SECRET_KEY" := "abcdefgh" ]}) !! "SECRET_KEY")]))]
         (fresh {[ "SECRET_KEY" := "abcdefgh" ]}))
    else
      (Raise UnicodeEncodeError,
       logged [Stdout (request_line (ctime (fresh {[ "SECRET_KEY" := "abcdefgh" ]})) "/hello");
               StdoutFlush; AccessLog 200; SendResponse 200; EndHeaders]
         (fresh {[ "SECRET_KEY" := "abcdefgh" ]})).
Proof.
  apply (fallback_page "/hello" (fresh {[ "SECRET_KEY" := "abcdefgh" ]}));
    [reflexivity | reflexivity | discriminate | discriminate].
Defined.

Example fallback_page_scenario :
  (run (FeatureTest.do_GET "/hello") (fresh {[ "SECRET_KEY" := "abcdéfgh" ]})).1 = Return tt ∧
  trace (run (FeatureTest.do_GET "/hello") (fresh {[ "SECRET_KEY" := "abcdéfgh" ]})).2 =
    [Stdout "[Tue Nov  3 10:44:00 2026] 📥 Request: /hello"; StdoutFlush;
     AccessLog 200; SendResponse 200; EndHeaders;
     WfileWrite (PyStr.utf8 ("🚀 Hello from Arcane!" +:+ nl +:+ "Hostname: unknown" +:+ nl +:+
                             "Secret: abcdéfgh" +:+ nl))] ∧
  String.length (PyStr.utf8 "Secret: abcdéfgh") = 17%nat ∧
  PyStr.len "Secret: abcdéfgh" = 16.
Proof. repeat split; vm_compute; reflexivity. Qed.

(** ** The listener *)




Example feature_test_default_port :
  trace (run (FeatureTest.main []) (fresh ∅)).2 =
    [Stdout "🔥 Arcane Feature Test App starting on port 8080..."; StdoutFlush;
     Listen "0.0.0.0" 8080].
Proof. vm_compute. reflexivity. Qed.

Example feature_test_unicode_port :
  trace (run (FeatureTest.main []) (fresh {[ "PORT" := "٩٠٠٠" ]})).2 =
    [Stdout "🔥 Arcane Feature Test App starting on port 9000..."; StdoutFlush;
     Listen "0.0.0.0" 9000].
Proof. vm_compute. reflexivity. Qed.

Example feature_test_port_zero :
  trace (run (FeatureTest.main []) (fresh {[ "PORT" := "0" ]})).2 =
    [Stdout "🔥 Arcane Feature Test App starting on port 0..."; StdoutFlush;
     Listen "0.0.0.0" (free_port (fresh {[ "PORT" := "0" ]}))].
Proof. vm_compute. reflexivity. Qed.

Example feature_test_bad_port :
  run (FeatureTest.main []) (fresh {[ "PORT" := "http" ]}) =
    (Raise (ValueError (InvalidLiteral "http")), fresh {[ "PORT" := "http" ]}) ∧
  run (FeatureTest.main []) (fresh {[ "PORT" := Str 31 "9000" ]}) =
    (Raise (ValueError (InvalidLiteral (Str 31 "9000"))),
     fresh {[ "PORT" := Str 31 "9000" ]}).
Proof. split; vm_compute; reflexivity. Qed.

Example api_ignored_under_flask_command :
  trace (run Api.main (fresh {[ "FLASK_RUN_FROM_CLI" := "true" ]})).2 = [IgnoredRun].
Proof. vm_compute. reflexivity. Qed.

(** ** Request logging *)

(** C6, as stated, fails: once [sys.stdout] is closed the log line cannot be
    written, the handler raises and nothing is sent. *)
Lemma logging_failure_counterexample :
  run (FeatureTest.do_GET "/health") (stdout_gone ∅) = (Raise closed_file, stdout_gone ∅) ∧
  trace (stdout_gone ∅) = [] ∧
  ¬ logging_is_best_effort.
Proof.
  split; [reflexivity|]. split; [reflexivity|].
  intros Hbest. destruct (Hbest "/health" (stdout_gone ∅)) as (w' & Hrun & _); [done|].
  rewrite do_GET_closed in Hrun by done. discriminate.
Qed.

Lemma request_line_contains now path :
  PyStr.Contains now (request_line now path) ∧
  PyStr.Contains path (request_line now path).
Proof.
  unfold request_line, PyStr.Contains. split.
  - by exists "[", ("] 📥 Request: " +:+ path).
  - exists ("[" +:+ now +:+ "] 📥 Request: "), "".
    by rewrite str_app_nil_r, !str_app_assoc.
Qed.

(** C6, amended.  In the feature-test variant the handler of every request
    starts by writing to [sys.stdout], and flushing, a line that holds the
    timestamp and the request path; whatever else it does, the response
    included, comes after.  The write is not guarded: when it raises
    ([sys.stdout] closed) the handler ends with that exception, having
    written nothing and sent no response. *)
Theorem request_logged_first (path : str) (w : World) :
  PyStr.Contains (ctime w) (request_line (ctime w) path) ∧
  PyStr.Contains path (request_line (ctime w) path) ∧
  if stdout_closed w
  then run (FeatureTest.do_GET path) w = (Raise closed_file, w)
  else ∃ evs, (run (FeatureTest.do_GET path) w).2 =
         logged (Stdout (request_line (ctime w) path) :: StdoutFlush :: evs) w.
Proof.
  destruct (request_line_contains (ctime w) path) as [Hnow Hpath].
  split; [done|]. split; [done|].
  destruct (stdout_closed w) eqn:Hout; [by apply do_GET_closed|].
  destruct (decide (path = "/health")) as [->|Hhealth].
  { rewrite do_GET_health by done. destruct (stderr_closed w); by eexists. }
  destruct (decide (path = "/crash")) as [->|Hcrash].
  { rewrite do_GET_crash by done. destruct (stderr_closed w); by eexists. }
  rewrite do_GET_other by done.
  destruct (stderr_closed w); [by eexists|].
  destruct (PyStr.encodable _); by eexists.
Qed.

(** ** No write path *)

(** C9.  Handling a request on any route leaves the configuration mapping
    as it is.  A view of the Flask application leaves the whole world
    unchanged; the feature-test handler adds events to the trace (its log
    line, its response) and changes nothing else; and the server loop keeps
    the configuration over any sequence of requests. *)
Theorem handlers_read_only (path : str) (w : World) :
  (run (Api.app path) w).2 = w ∧
  (∃ evs, (run (FeatureTest.do_GET path) w).2 = logged evs w) ∧
  environ (run (Api.app path) w).2 = environ w ∧
  environ (run (FeatureTest.do_GET path) w).2 = environ w ∧
  ∀ requests, environ (run (FeatureTest.serve_forever requests) w).2 = environ w.
Proof.
  pose proof (app_pure_read path w) as Happ.
  destruct (do_GET_only_logs path w) as [evs Hevs].
  split; [done|]. split; [by exists evs|]. split; [by rewrite Happ|].
  split; [by rewrite Hevs|].
  intros requests. apply serve_forever_keeps_config.
Qed.


(** * Further properties of the code *)

(** ** Sensitive keys and masking *)

Section Masking.
Import PyStr Api.

Lemma Sensitive_extend key pre post :
  Spec.Sensitive key → Spec.Sensitive (pre +:+ key +:+ post).
Proof.
  intros (word & Hin & Hword). exists word. split; [done|].
  rewrite !upper_app. by apply Contains_extend.
Qed.

Lemma mask_long p r :
  length p = 4%nat → r ≠ "" → mask (p +:+ r) = p +:+ "****".
Proof.
  intros Hp Hr. unfold mask, len.
  rewrite str_app_length, Hp.
  destruct r as [|c r]; [done|]. cbn [length].
  destruct (Z.gtb_spec (Z.of_nat (4 + S (length r))) 4) as [_|Hle]; [|lia].
  by rewrite <-Hp, slice_to_app.
Qed.

Lemma mask_short v : (length v ≤ 4)%nat → mask v = "****".
Proof.
  intros Hv. unfold mask, len.
  by destruct (Z.gtb_spec (Z.of_nat (length v)) 4) as [Hgt|_]; [lia|].
Qed.

End Masking.

(** X1.  The sensitivity test of [show_env] ignores the case of the key:
    two keys that differ only in the case of their letters are both
    sensitive or both not. *)
Theorem is_sensitive_nocase (key key' : str) :
  PyStr.eq_nocase key key' → Api.is_sensitive key = Api.is_sensitive key'.
Proof.
  intros Heq. apply upper_nocase in Heq.
  unfold Api.is_sensitive. by rewrite Heq.
Qed.

Lemma is_sensitive_nocase_witness :
  Api.is_sensitive "Api_Token" = Api.is_sensitive "API_TOKEN".
Proof. apply (is_sensitive_nocase "Api_Token" "API_TOKEN"). reflexivity. Defined.

(** X2.  A key that holds a sensitive key inside it is sensitive: the test
    looks for the words anywhere in the key, so adding a prefix or a suffix
    never takes a key out of masking. *)
Theorem is_sensitive_extend (key pre post : str) :
  Api.is_sensitive key = true → Api.is_sensitive (pre +:+ key +:+ post) = true.
Proof. rewrite !is_sensitive_spec. apply Sensitive_extend. Qed.

Lemma is_sensitive_extend_witness :
  Api.is_sensitive ("STRIPE_" +:+ "secret" +:+ "_LIVE") = true.
Proof. apply (is_sensitive_extend "secret" "STRIPE_" "_LIVE"). reflexivity. Defined.

(** X3.  What the mask shows of a value, its length counted in code points
    as [len] does: nothing of a value of at most 4 characters, and of a
    longer value its first 4 characters and nothing of what follows them. *)
Theorem mask_shows_four (v p r : str) :
  ((PyStr.length v ≤ 4)%nat → Api.mask v = "****") ∧
  (PyStr.length p = 4%nat → r ≠ "" → Api.mask (p +:+ r) = p +:+ "****").
Proof. split; [apply mask_short | apply mask_long]. Qed.

Lemma mask_shows_four_witness :
  Api.mask "éééé" = "****" ∧ Api.mask ("ééab" +:+ "c") = "ééab" +:+ "****".
Proof.
  split.
  - apply (proj1 (mask_shows_four "éééé" "" "")). simpl. lia.
  - apply (proj2 (mask_shows_four "" "ééab" "c")); [reflexivity | discriminate].
Defined.



Example show_env_shows_four_code_points :
  (run (Api.app "/env") (fresh {[ "SECRET_KEY" := "ééabc" ]})).1 =
    Return (Api.jsonify {[ "SECRET_KEY" := Api.JStr "ééab****" ]}) ∧
  (run (Api.app "/env") (fresh {[ "ſecret" := "éééé" ]})).1 =
    Return (Api.jsonify {[ "ſecret" := Api.JStr "****" ]}).
Proof. split; vm_compute; reflexivity. Qed.


(** ** The views of the Flask application, together *)

Section Views.
Import PyStr Api.

Lemma py_bool_ext (env env' : gmap str str) key :
  (Spec.Present env key ↔ Spec.Present env' key) →
  py_bool (env !! key) = py_bool (env' !! key).
Proof.
  rewrite <-!py_bool_present.
  destruct (py_bool (env !! key)), (py_bool (env' !! key)); intuition congruence.
Qed.

Lemma descriptor_ext (env env' : gmap str str) :
  (∀ name key, (name, key) ∈ Spec.dependencies →
     (Spec.Present env key ↔ Spec.Present env' key)) →
  descriptor env = descriptor env'.
Proof.
  intros Hsame. unfold descriptor. f_equal.
  apply list_fmap_ext. intros i [name key] Hdep. cbn [fst snd]. do 2 f_equal.
  apply py_bool_ext, (Hsame name). by eapply list_elem_of_lookup_2.
Qed.

(** A string written in capitals holds none of the schemes. *)
Lemma capitals_no_scheme scheme raw :
  scheme ∈ ["postgres"; "redis"; "amqp"] → upper raw = raw → ¬ Contains scheme raw.
Proof.
  intros Hscheme Hraw (pre & post & Heq). apply upper_fixed in Hraw.
  rewrite Heq, !upper_ascii_app in Hraw.
  apply str_app_inj_length in Hraw as [_ Hraw]; [|apply upper_ascii_length].
  apply str_app_inj_length in Hraw as [Hraw _]; [|apply upper_ascii_length].
  repeat (apply elem_of_cons in Hscheme as [->|Hscheme]; [discriminate|]).
  by apply elem_of_nil in Hscheme.
Qed.

Lemma check_response_inv (name : str) (ok : bool) (w : World) :
  (Return (jsonify (dict [(name, configured ok)])), w).1 =
    Return (jsonify {[ name := JStr Spec.configured ]}) →
  ok = true.
Proof.
  cbn [fst]. rewrite dict_singleton. unfold jsonify. intros Heq.
  assert (({[ name := configured ok ]} : gmap str jvalue) =
          {[ name := JStr Spec.configured ]}) as Hmap by congruence.
  apply (f_equal (λ m, m !! name)) in Hmap.
  rewrite !lookup_singleton_eq in Hmap. apply configured_inv. congruence.
Qed.

Lemma contains_nonempty scheme raw : scheme ≠ "" → Contains scheme raw → raw ≠ "".
Proof.
  intros Hscheme (pre & post & ->). destruct pre; [|done].
  destruct scheme; done.
Qed.

End Views.

(** X5.  [/services] tells which keys are set and nothing of their values:
    two configurations in which the same dependency keys are present with a
    non-empty value get the same response. *)
Theorem services_presence_only (w1 w2 : World) :
  (∀ name key, (name, key) ∈ Spec.dependencies →
     (Spec.Present (environ w1) key ↔ Spec.Present (environ w2) key)) →
  (run (Api.app "/services") w1).1 = (run (Api.app "/services") w2).1.
Proof.
  intros Hsame. change (Api.app "/services") with Api.services.
  rewrite !services_run. cbn [fst]. by rewrite (descriptor_ext _ _ Hsame).
Qed.

Lemma services_presence_only_witness :
  (run (Api.app "/services") (fresh {[ "DATABASE_URL" := "postgres://x" ]})).1 =
  (run (Api.app "/services") (fresh {[ "DATABASE_URL" := "mysql://y" ]})).1.
Proof.
  apply (services_presence_only (fresh {[ "DATABASE_URL" := "postgres://x" ]})
           (fresh {[ "DATABASE_URL" := "mysql://y" ]})).
  intros name key Hin. rewrite <-!py_bool_present.
  cbn [fresh environ].
  repeat (apply elem_of_cons in Hin as [[= -> ->]|Hin]; [by vm_compute|]).
  by apply elem_of_nil in Hin.
Defined.

(** X6.  The checks and [/services] agree in one direction: whenever
    [/db-check], [/cache-check] or [/queue-check] answers "configured",
    [/services] reports that dependency as [true].  (Not the other way
    round: a value without the scheme is present but not "configured".) *)
Theorem configured_implies_present (w : World) :
  ∃ obj, run (Api.app "/services") w = (Return (Api.jsonify obj), w) ∧
    ((run (Api.app "/db-check") w).1 =
        Return (Api.jsonify {[ "database" := Api.JStr Spec.configured ]}) →
     obj !! "database" = Some (Api.JBool true)) ∧
    ((run (Api.app "/cache-check") w).1 =
        Return (Api.jsonify {[ "redis" := Api.JStr Spec.configured ]}) →
     obj !! "redis" = Some (Api.JBool true)) ∧
    ((run (Api.app "/queue-check") w).1 =
        Return (Api.jsonify {[ "rabbitmq" := Api.JStr Spec.configured ]}) →
     obj !! "rabbitmq" = Some (Api.JBool true)).
Proof.
  exists (descriptor (environ w)). split; [apply services_run|].
  assert (∀ scheme name key,
    scheme ∈ ["postgres"; "redis"; "amqp"] → scheme ≠ "" →
    (name, key) ∈ Spec.dependencies →
    PyStr.str_in scheme (default "not configured" (environ w !! key)) = true →
    descriptor (environ w) !! name = Some (Api.JBool true)) as Hstep.
  { intros scheme name key Hscheme Hne Hdep Hin.
    apply (check_status scheme key w Hscheme) in Hin as (raw & Hraw & Hc).
    rewrite (descriptor_lookup _ _ _ Hdep). do 2 f_equal.
    apply py_bool_present. exists raw. split; [done|].
    by eapply contains_nonempty. }
  refine (conj _ (conj _ _)); intros Hresp.
  - change (Api.app "/db-check") with Api.db_check in Hresp.
    apply check_response_inv in Hresp.
    apply (Hstep "postgres" "database" "DATABASE_URL");
      [apply scheme_postgres | discriminate | apply dep_database | exact Hresp].
  - change (Api.app "/cache-check") with Api.cache_check in Hresp.
    apply check_response_inv in Hresp.
    apply (Hstep "redis" "redis" "REDIS_URL");
      [apply scheme_redis | discriminate | apply dep_redis | exact Hresp].
  - change (Api.app "/queue-check") with Api.queue_check in Hresp.
    apply check_response_inv in Hresp.
    apply (Hstep "amqp" "rabbitmq" "RABBITMQ_URL");
      [apply scheme_amqp | discriminate | apply dep_rabbitmq | exact Hresp].
Qed.

Lemma configured_implies_present_witness :
  ∃ obj,
    run (Api.app "/services") (fresh {[ "DATABASE_URL" := "postgres://x" ]}) =
      (Return (Api.jsonify obj), fresh {[ "DATABASE_URL" := "postgres://x" ]}) ∧
    obj !! "database" = Some (Api.JBool true).
Proof.
  destruct (configured_implies_present (fresh {[ "DATABASE_URL" := "postgres://x" ]}))
    as (obj & Hrun & Hdb & _).
  exists obj. split; [exact Hrun|]. apply Hdb. vm_compute. reflexivity.
Defined.

(** X7.  The scheme test of the three checks is case-sensitive: a value
    written in capitals (one that [upper] leaves as it is) is never reported
    "configured", whatever it holds. *)
Theorem checks_case_sensitive (w : World) (key raw : str) :
  environ w !! key = Some raw →
  PyStr.upper raw = raw →
  (key = "DATABASE_URL" →
   run (Api.app "/db-check") w =
     (Return (Api.jsonify {[ "database" := Api.JStr Spec.not_configured ]}), w)) ∧
  (key = "REDIS_URL" →
   run (Api.app "/cache-check") w =
     (Return (Api.jsonify {[ "redis" := Api.JStr Spec.not_configured ]}), w)) ∧
  (key = "RABBITMQ_URL" →
   run (Api.app "/queue-check") w =
     (Return (Api.jsonify {[ "rabbitmq" := Api.JStr Spec.not_configured ]}), w)).
Proof.
  intros Hraw Hupper.
  assert (∀ scheme, scheme ∈ ["postgres"; "redis"; "amqp"] →
            PyStr.str_in scheme raw = false) as Hno.
  { intros scheme Hscheme. by apply str_in_false, capitals_no_scheme. }
  refine (conj _ (conj _ _)); intros ->.
  - change (Api.app "/db-check") with Api.db_check.
    unfold run, Api.db_check, environ_get_default, mbind, Py_bind, mret, Py_ret.
    rewrite Hraw. cbn [default]. rewrite Hno by apply scheme_postgres.
    by rewrite dict_singleton.
  - change (Api.app "/cache-check") with Api.cache_check.
    unfold run, Api.cache_check, environ_get_default, mbind, Py_bind, mret, Py_ret.
    rewrite Hraw. cbn [default]. rewrite Hno by apply scheme_redis.
    by rewrite dict_singleton.
  - change (Api.app "/queue-check") with Api.queue_check.
    unfold run, Api.queue_check, environ_get_default, mbind, Py_bind, mret, Py_ret.
    rewrite Hraw. cbn [default]. rewrite Hno by apply scheme_amqp.
    by rewrite dict_singleton.
Qed.

Lemma checks_case_sensitive_witness :
  run (Api.app "/db-check") (fresh {[ "DATABASE_URL" := "POSTGRES://DB:5432/APP" ]}) =
    (Return (Api.jsonify {[ "database" := Api.JStr Spec.not_configured ]}),
     fresh {[ "DATABASE_URL" := "POSTGRES://DB:5432/APP" ]}).
Proof.
  destruct (checks_case_sensitive
              (fresh {[ "DATABASE_URL" := "POSTGRES://DB:5432/APP" ]})
              "DATABASE_URL" "POSTGRES://DB:5432/APP") as [Hdb _].
  - vm_compute. reflexivity.
  - reflexivity.
  - apply Hdb. reflexivity.
Defined.

(** X8.  [/] always answers 200 with the four entries service, version,
    environment and timestamp; the environment shown is the value of APP_ENV,
    "unknown" when APP_ENV is absent, and the timestamp is the clock's
    reading.  Nothing else of the configuration reaches the response: two
    worlds with the same APP_ENV and the same clock get the same answer. *)
Theorem index_shows_app_env (w : World) :
  ∃ obj, run (Api.app "/") w = (Return (Api.jsonify obj), w) ∧
    obj !! "service" = Some (Api.JStr "Full-Stack Demo API") ∧
    obj !! "version" = Some (Api.JStr "1.0.0") ∧
    obj !! "environment" = Some (Api.JStr (default "unknown" (environ w !! "APP_ENV"))) ∧
    obj !! "timestamp" = Some (Api.JNum (time_time w)) ∧
    (∀ k, is_Some (obj !! k) → k ∈ ["service"; "version"; "environment"; "timestamp"]) ∧
    (∀ w', environ w' !! "APP_ENV" = environ w !! "APP_ENV" →
           time_time w' = time_time w →
           (run (Api.app "/") w').1 = Return (Api.jsonify obj)).
Proof.
  eexists. split; [reflexivity|].
  unfold Api.dict. cbn [foldl fst snd].
  refine (conj _ (conj _ (conj _ (conj _ (conj _ _))))).
  - by simplify_map_eq.
  - by simplify_map_eq.
  - by simplify_map_eq.
  - by simplify_map_eq.
  - intros k Hk.
    repeat (rewrite lookup_insert in Hk; case_decide;
            [subst k; set_solver|]).
    rewrite lookup_empty in Hk. by destruct Hk.
  - intros w' Henv Htime.
    change (Api.app "/") with Api.index.
    unfold run, Api.index, environ_get_default, get_time, mbind, Py_bind, mret, Py_ret.
    cbn [fst]. rewrite Henv, Htime. reflexivity.
Qed.


(** ** The feature-test handler and its server loop *)

Section Serving.
Import FeatureTest.

Lemma statuses_app evs evs' : statuses (evs ++ evs') = statuses evs ++ statuses evs'.
Proof.
  induction evs as [|e evs IH]; [done|].
  destruct e; simpl; by rewrite ?IH.
Qed.

Lemma logged_trace evs w : trace (logged evs w) = trace w ++ evs.
Proof. reflexivity. Qed.

(** The body of the fallback page starts with the greeting. *)
Lemma fallback_not_ok env : PyStr.utf8 (unlines (fallback_lines env)) ≠ "OK"%b.
Proof. unfold fallback_lines. cbn [unlines]. discriminate. Qed.

(** One turn of the loop on a request for a page, with both standard
    streams open: one status 200 is sent, and the loop goes on, also when
    the handler has raised on the way to the body. *)
Lemma request_served r w :
  stdout_closed w = false → stderr_closed w = false → req_path r ≠ "/crash" →
  ∃ evs,
    statuses evs = [200] ∧
    ∀ rest, run (serve_forever (r :: rest)) w =
              run (serve_forever rest) (logged evs (at_ctime (arrival r) w)).
Proof.
  intros Hout Herr Hcrash.
  assert (∀ rest, run (serve_forever (r :: rest)) w =
    match run (do_GET (req_path r)) (at_ctime (arrival r) w) with
    | (Return _, w') => serve_forever rest w'
    | (Raise (SystemExit code), w') => (Raise (SystemExit code), w')
    | (Raise e, w') => (handle_error e;; serve_forever rest) w'
    end) as Hstep by done.
  destruct (decide (req_path r = "/health")) as [Hhealth|Hhealth].
  - exists [Stdout (request_line (arrival r) "/health"); StdoutFlush;
            AccessLog 200; SendResponse 200; EndHeaders; WfileWrite "OK"].
    split; [done|]. intros rest. rewrite Hstep, Hhealth, do_GET_health by done.
    cbn [at_ctime stderr_closed]. by rewrite Herr.
  - destruct (PyStr.encodable (unlines (fallback_lines (environ w)))) eqn:Henc.
    + exists [Stdout (request_line (arrival r) (req_path r)); StdoutFlush;
              AccessLog 200; SendResponse 200; EndHeaders;
              WfileWrite (PyStr.utf8 (unlines (fallback_lines (environ w))))].
      split; [done|]. intros rest. rewrite Hstep, do_GET_other by done.
      cbn [at_ctime stderr_closed environ]. by rewrite Herr, Henc.
    + exists [Stdout (request_line (arrival r) (req_path r)); StdoutFlush;
              AccessLog 200; SendResponse 200; EndHeaders;
              Traceback UnicodeEncodeError].
      split; [done|]. intros rest. rewrite Hstep, do_GET_other by done.
      cbn [at_ctime stderr_closed environ]. rewrite Herr, Henc.
      unfold mbind, Py_bind, handle_error. cbn [logged at_ctime stderr_closed].
      rewrite Herr, emit_logged. unfold logged, run.
      cbn [trace environ ctime time_time int_max_str_digits bind_granted free_port
           stdout_closed stderr_closed]. by rewrite <-app_assoc.
Qed.

(** The loop over requests none of which is for [/crash]: each is
    answered with one status 200, and the loop goes on with what follows. *)
Lemma serve_forever_prefix pre w :
  stdout_closed w = false → stderr_closed w = false →
  Forall (λ r, req_path r ≠ "/crash") pre →
  ∃ w1 evs,
    trace w1 = trace w ++ evs ∧
    statuses evs = replicate (length pre) 200 ∧
    stdout_closed w1 = false ∧
    stderr_closed w1 = false ∧
    ∀ rest, run (serve_forever (pre ++ rest)) w = run (serve_forever rest) w1.
Proof.
  intros Hout Herr Hpre. revert w Hout Herr.
  induction Hpre as [|r pre Hr _ IH]; intros w Hout Herr.
  - exists w, []. by rewrite app_nil_r.
  - destruct (request_served r w Hout Herr Hr) as (evs & Hst & Hrun).
    destruct (IH (logged evs (at_ctime (arrival r) w)) Hout Herr)
      as (w1 & evs' & Htr & Hst' & Hout1 & Herr1 & Hrest).
    exists w1, (evs ++ evs'). split_and!.
    + rewrite Htr. cbn [logged at_ctime trace]. by rewrite app_assoc.
    + rewrite statuses_app, Hst, Hst'. done.
    + done.
    + done.
    + intros rest. rewrite <-Hrest. cbn [app]. apply Hrun.
Qed.

Lemma serve_forever_crash t rest w :
  stdout_closed w = false → stderr_closed w = false →
  run (serve_forever (mkRequest t "/crash" :: rest)) w =
    (Raise (SystemExit 1),
     logged [Stdout (request_line t "/crash"); StdoutFlush;
             Stderr "💥 CRASHING NOW..."] (at_ctime t w)).
Proof.
  intros Hout Herr. unfold run. cbn [serve_forever arrival req_path].
  change ((clock_reads t;; do_GET "/crash") w)
    with (run (do_GET "/crash") (at_ctime t w)).
  rewrite do_GET_crash by done. cbn [at_ctime stderr_closed]. by rewrite Herr.
Qed.

(** With [sys.stdout] closed and [sys.stderr] open every request ends in
    the report of the failed log write. *)
Lemma serve_forever_mute requests w :
  stdout_closed w = true → stderr_closed w = false →
  ∃ w', run (serve_forever requests) w = (Return tt, w') ∧
        trace w' = trace w ++ replicate (length requests) (Traceback closed_file).
Proof.
  revert w. induction requests as [|r rest IH]; intros w Hout Herr.
  - exists w. by rewrite app_nil_r.
  - unfold run. cbn [serve_forever].
    change ((clock_reads (arrival r);; do_GET (req_path r)) w)
      with (run (do_GET (req_path r)) (at_ctime (arrival r) w)).
    rewrite do_GET_closed by done. unfold closed_file at 1.
    unfold mbind, Py_bind, handle_error. cbn [at_ctime stderr_closed].
    rewrite Herr, emit_logged.
    destruct (IH (logged [Traceback closed_file] (at_ctime (arrival r) w)) Hout Herr)
      as (w' & Hrun & Htr).
    exists w'. split; [exact Hrun|]. rewrite Htr. cbn [logged at_ctime trace length replicate].
    by rewrite <-app_assoc.
Qed.

(** What [int] answers when it does not answer with an integer. *)
Lemma of_str_error limit s why :
  PyInt.of_str limit s = inr why →
  why = InvalidLiteral s ∨
  ∃ digits, why = ExceedsDigits limit digits ∧ 0 < limit < digits ∧ 640 < digits.
Proof.
  unfold PyInt.of_str.
  destruct (match PyInt.lstrip s with
            | Str c r => if (c =? 43)%N then (false, r)
                         else if (c =? 45)%N then (true, r) else (false, PyInt.lstrip s)
            | EmptyStr => (false, PyInt.lstrip s)
            end) as [negative t].
  destruct (PyInt.scan t 0 0 PyInt.AtStart) as [[[acc count] rest]|]; [|left; congruence].
  destruct ((640 <? count) && (0 <? limit) && (limit <? count)) eqn:Hlimit.
  - intros [= <-]. right. exists count. split; [done|].
    apply andb_prop in Hlimit as [Hlimit H3]. apply andb_prop in Hlimit as [H1 H2]. lia.
  - destruct (count =? 0); [left; congruence|].
    destruct (PyInt.lstrip rest); [discriminate | left; congruence].
Qed.

End Serving.

(** X9.  The handler dispatches on the exact path.  With both standard
    streams open, the body "OK" is written if and only if the path is
    [/health], and the handler raises [SystemExit(1)], sending no status,
    if and only if the path is [/crash]; any other path, however much it
    resembles one of them, gets status 200 and the fallback page: its three
    lines in UTF-8 as the one body, or no body when they cannot be
    encoded. *)
Theorem do_GET_exact_match (path : str) (w : World) :
  stdout_closed w = false →
  stderr_closed w = false →
  ∃ evs, (run (FeatureTest.do_GET path) w).2 = logged evs w ∧
    (bodies evs = ["OK"%b] ↔ path = "/health") ∧
    ((run (FeatureTest.do_GET path) w).1 = Raise (SystemExit 1) ↔ path = "/crash") ∧
    (statuses evs = [] ↔ path = "/crash") ∧
    (path ≠ "/health" → path ≠ "/crash" →
     statuses evs = [200] ∧
     bodies evs =
       if PyStr.encodable (unlines (fallback_lines (environ w)))
       then [PyStr.utf8 (unlines (fallback_lines (environ w)))]
       else []).
Proof.
  intros Hout Herr.
  destruct (decide (path = "/health")) as [->|Hhealth].
  { rewrite do_GET_health, Herr by done. eexists. split; [reflexivity|]. by cbn. }
  destruct (decide (path = "/crash")) as [->|Hcrash].
  { rewrite do_GET_crash, Herr by done. eexists. split; [reflexivity|]. by cbn. }
  rewrite do_GET_other, Herr by done.
  pose proof (fallback_not_ok (environ w)) as Hbody.
  destruct (PyStr.encodable (unlines (fallback_lines (environ w))));
    (eexists; split; [reflexivity|]); cbn [fst bodies statuses];
    split_and!; try done; split; try done; congruence.
Qed.

Lemma do_GET_exact_match_witness :
  ∃ evs, (run (FeatureTest.do_GET "/health/") (fresh ∅)).2 = logged evs (fresh ∅) ∧
    (bodies evs = ["OK"%b] ↔ "/health/" = "/health") ∧
    ((run (FeatureTest.do_GET "/health/") (fresh ∅)).1 = Raise (SystemExit 1)
       ↔ "/health/" = "/crash") ∧
    (statuses evs = [] ↔ "/health/" = "/crash") ∧
    ("/health/" ≠ "/health" → "/health/" ≠ "/crash" →
     statuses evs = [200] ∧
     bodies evs =
       if PyStr.encodable (unlines (fallback_lines (environ (fresh ∅))))
       then [PyStr.utf8 (unlines (fallback_lines (environ (fresh ∅))))]
       else []).
Proof. apply (do_GET_exact_match "/health/" (fresh ∅)); reflexivity. Defined.

(** X10.  As long as no request is for [/crash] and both standard streams
    are open, the server answers every request with one status 200, in
    order, and goes on running: it never exits on its own. *)
Theorem serve_forever_answers_all (requests : list FeatureTest.request) (w : World) :
  stdout_closed w = false →
  stderr_closed w = false →
  Forall (λ r, FeatureTest.req_path r ≠ "/crash") requests →
  ∃ w' evs,
    run (FeatureTest.serve_forever requests) w = (Return tt, w') ∧
    exit_status (run (FeatureTest.serve_forever requests) w).1 = Running ∧
    trace w' = trace w ++ evs ∧
    statuses evs = replicate (length requests) 200.
Proof.
  intros Hout Herr Hreqs.
  destruct (serve_forever_prefix requests w Hout Herr Hreqs)
    as (w1 & evs & Htr & Hst & _ & _ & Hrest).
  specialize (Hrest []). rewrite app_nil_r in Hrest.
  exists w1, evs. by rewrite Hrest.
Qed.

Lemma serve_forever_answers_all_witness :
  ∃ w' evs,
    run (FeatureTest.serve_forever
           [FeatureTest.mkRequest "Tue Nov  3 10:45:12 2026" "/health";
            FeatureTest.mkRequest "Tue Nov  3 10:45:13 2026" "/"]) (fresh ∅) = (Return tt, w') ∧
    exit_status (run (FeatureTest.serve_forever
           [FeatureTest.mkRequest "Tue Nov  3 10:45:12 2026" "/health";
            FeatureTest.mkRequest "Tue Nov  3 10:45:13 2026" "/"]) (fresh ∅)).1 = Running ∧
    trace w' = trace (fresh ∅) ++ evs ∧
    statuses evs = replicate 2 200.
Proof.
  apply (serve_forever_answers_all
           [FeatureTest.mkRequest "Tue Nov  3 10:45:12 2026" "/health";
            FeatureTest.mkRequest "Tue Nov  3 10:45:13 2026" "/"] (fresh ∅));
    [reflexivity | reflexivity | repeat constructor; discriminate].
Defined.

(** X11.  The first request for [/crash] is the end: with both streams
    open, the requests before it are each answered with status 200, the
    crash request itself gets no status, the message to [sys.stderr] is the
    last thing the process does, it exits with status 1, and the requests
    behind it are never served. *)
Theorem serve_forever_until_crash (pre rest : list FeatureTest.request) (t : str)
    (w : World) :
  stdout_closed w = false →
  stderr_closed w = false →
  Forall (λ r, FeatureTest.req_path r ≠ "/crash") pre →
  ∃ evs,
    exit_status
      (run (FeatureTest.serve_forever (pre ++ FeatureTest.mkRequest t "/crash" :: rest)) w).1
      = Exited 1 ∧
    trace (run (FeatureTest.serve_forever (pre ++ FeatureTest.mkRequest t "/crash" :: rest)) w).2
      = trace w ++ evs ∧
    statuses evs = replicate (length pre) 200 ∧
    last evs = Some (Stderr "💥 CRASHING NOW...").
Proof.
  intros Hout Herr Hpre.
  destruct (serve_forever_prefix pre w Hout Herr Hpre)
    as (w1 & evs & Htr & Hst & Hout1 & Herr1 & Hrest).
  rewrite Hrest, serve_forever_crash by congruence.
  exists (evs ++ [Stdout (request_line t "/crash"); StdoutFlush;
                  Stderr "💥 CRASHING NOW..."]).
  split_and!.
  - done.
  - cbn [snd logged at_ctime trace]. by rewrite Htr, app_assoc.
  - rewrite statuses_app, Hst. cbn. by rewrite app_nil_r.
  - by rewrite last_app.
Qed.

Lemma serve_forever_until_crash_witness :
  ∃ evs,
    exit_status
      (run (FeatureTest.serve_forever
              ([FeatureTest.mkRequest "Tue Nov  3 10:45:12 2026" "/health"] ++
               FeatureTest.mkRequest "Tue Nov  3 10:45:13 2026" "/crash" ::
               [FeatureTest.mkRequest "Tue Nov  3 10:45:14 2026" "/health"])) (fresh ∅)).1
      = Exited 1 ∧
    trace (run (FeatureTest.serve_forever
              ([FeatureTest.mkRequest "Tue Nov  3 10:45:12 2026" "/health"] ++
               FeatureTest.mkRequest "Tue Nov  3 10:45:13 2026" "/crash" ::
               [FeatureTest.mkRequest "Tue Nov  3 10:45:14 2026" "/health"])) (fresh ∅)).2
      = trace (fresh ∅) ++ evs ∧
    statuses evs = replicate (length [FeatureTest.mkRequest "Tue Nov  3 10:45:12 2026" "/health"]) 200 ∧
    last evs = Some (Stderr "💥 CRASHING NOW...").
Proof.
  apply (serve_forever_until_crash
           [FeatureTest.mkRequest "Tue Nov  3 10:45:12 2026" "/health"]
           [FeatureTest.mkRequest "Tue Nov  3 10:45:14 2026" "/health"]
           "Tue Nov  3 10:45:13 2026" (fresh ∅));
    [reflexivity | reflexivity | repeat constructor; discriminate].
Defined.

(** X12.  Once [sys.stdout] is closed (and [sys.stderr] still open) the
    server sends nothing any more but keeps running: every request, a
    request for [/crash] included, ends in the report of the failed log
    write, so that [/crash] no longer terminates the process. *)
Theorem serve_forever_stdout_closed (requests : list FeatureTest.request) (w : World) :
  stdout_closed w = true →
  stderr_closed w = false →
  ∃ w',
    run (FeatureTest.serve_forever requests) w = (Return tt, w') ∧
    exit_status (run (FeatureTest.serve_forever requests) w).1 = Running ∧
    trace w' = trace w ++ replicate (length requests) (Traceback closed_file) ∧
    statuses (replicate (length requests) (Traceback closed_file)) = [].
Proof.
  intros Hout Herr.
  destruct (serve_forever_mute requests w Hout Herr) as (w' & Hrun & Htr).
  exists w'. rewrite Hrun. split_and!; try done.
  clear. induction (length requests) as [|n IH]; [done|]. by cbn.
Qed.

Lemma serve_forever_stdout_closed_witness :
  ∃ w',
    run (FeatureTest.serve_forever
           [FeatureTest.mkRequest "Tue Nov  3 10:45:12 2026" "/crash";
            FeatureTest.mkRequest "Tue Nov  3 10:45:13 2026" "/health"]) (stdout_gone ∅)
      = (Return tt, w') ∧
    exit_status (run (FeatureTest.serve_forever
           [FeatureTest.mkRequest "Tue Nov  3 10:45:12 2026" "/crash";
            FeatureTest.mkRequest "Tue Nov  3 10:45:13 2026" "/health"]) (stdout_gone ∅)).1
      = Running ∧
    trace w' = trace (stdout_gone ∅) ++ replicate 2 (Traceback closed_file) ∧
    statuses (replicate 2 (Traceback closed_file)) = [].
Proof.
  apply (serve_forever_stdout_closed
           [FeatureTest.mkRequest "Tue Nov  3 10:45:12 2026" "/crash";
            FeatureTest.mkRequest "Tue Nov  3 10:45:13 2026" "/health"] (stdout_gone ∅));
    reflexivity.
Defined.

(** ** Starting the feature-test service *)

(** X13.  A PORT that is set to something [int] rejects (the empty string,
    for one) stops the feature-test service at its first statement: [int]
    raises [ValueError], nothing is printed, no socket is bound, no request
    is served, and the process ends with status 1.  The error names the
    value as an invalid literal, or tells that a literal of more than 640
    digits has more digits than the interpreter's limit allows. *)
Theorem main_malformed_port (w : World) (s : str) (why : value_error)
    (requests : list FeatureTest.request) :
  environ w !! "PORT" = Some s →
  PyInt.of_str (int_max_str_digits w) s = inr why →
  run (FeatureTest.main requests) w = (Raise (ValueError why), w) ∧
  exit_status (run (FeatureTest.main requests) w).1 = Exited 1 ∧
  (why = InvalidLiteral s ∨
   ∃ digits, why = ExceedsDigits (int_max_str_digits w) digits ∧
             0 < int_max_str_digits w < digits ∧ 640 < digits).
Proof.
  intros Hport Hbad.
  assert (run (FeatureTest.main requests) w = (Raise (ValueError why), w)) as Hrun.
  { unfold run, FeatureTest.main, FeatureTest.PORT, environ_get, get_int_max_str_digits,
      mbind, Py_bind, raise.
    by rewrite Hport, Hbad. }
  rewrite Hrun. split; [done|]. split; [done|]. by apply of_str_error.
Qed.

Lemma main_malformed_port_witness :
  run (FeatureTest.main [FeatureTest.mkRequest "Tue Nov  3 10:45:12 2026" "/health"])
      (fresh {[ "PORT" := "" ]}) =
    (Raise (ValueError (InvalidLiteral "")), fresh {[ "PORT" := "" ]}) ∧
  exit_status (run (FeatureTest.main [FeatureTest.mkRequest "Tue Nov  3 10:45:12 2026" "/health"])
                 (fresh {[ "PORT" := "" ]})).1 = Exited 1 ∧
  (InvalidLiteral "" = InvalidLiteral "" ∨
   ∃ digits, InvalidLiteral "" = ExceedsDigits (int_max_str_digits (fresh {[ "PORT" := "" ]})) digits ∧
             0 < int_max_str_digits (fresh {[ "PORT" := "" ]}) < digits ∧ 640 < digits).
Proof.
  apply (main_malformed_port (fresh {[ "PORT" := "" ]}) "" (InvalidLiteral ""));
    [vm_compute; reflexivity | reflexivity].
Defined.



Example main_port_too_long :
  run (FeatureTest.main []) (fresh {[ "PORT" := PyStr.of_list (replicate 4301 57%N) ]}) =
    (Raise (ValueError (ExceedsDigits 4300 4301)),
     fresh {[ "PORT" := PyStr.of_list (replicate 4301 57%N) ]}).
Proof. vm_compute. reflexivity. Qed.


(** ** The worker *)

Section WorkerRuns.
Import Worker.




Lemma flag_present (env : gmap str str) key :
  (flag (env !! key) = "✅" ↔ Spec.Present env key) ∧
  (flag (env !! key) = "❌" ↔ ¬ Spec.Present env key).
Proof.
  rewrite <-py_bool_present. unfold flag.
  destruct (Api.py_bool (env !! key)); split; split; done.
Qed.

End WorkerRuns.

Section WorkerReport.
Import Worker.



End WorkerReport.




Example worker_two_turns :
  trace (run (Worker.main [Worker.mkTurn "2026-11-03 10:44:00" "2026-11-03 10:44:30"])
           (fresh {[ "APP_ENV" := "staging"; "REDIS_URL" := "redis://cache" ]})).2 =
    [Stdout "🔧 Starting Background Worker..."; Stdout "   Environment: staging";
     Stdout "   Database: ❌"; Stdout "   Redis: ✅"; Stdout "   RabbitMQ: ❌"; StdoutFlush;
     Stdout "[2026-11-03 10:44:00] 💤 Waiting for jobs..."; StdoutFlush;
     Stdout "[2026-11-03 10:44:30] ✅ Heartbeat OK"; StdoutFlush].
Proof. vm_compute. reflexivity. Qed.
